(** * dugite-extra, [src/command/branch.ts]: branch listing and deletion

  A shallow embedding of the ref-listing decoder ([getBranches]), of the
  current-branch resolver and the listing filter ([listBranch]) and of
  [deleteBranch], followed by the properties of the specification that
  concern them.

  Conventions of the embedding.
  - A JavaScript string is a [string]: a sequence of code units, here the
    code units below 256.  The three separators of the decoder (NUL, the
    unit separator 0x1F and the newline) and every literal of the source are
    in that range.
  - A JavaScript value of type [string | undefined] is an [option string],
    [None] being [undefined].
  - An exception is a [Throw] in the [Result] type; [await] on a rejected
    promise rethrows, so promises are not modelled apart.
  - The external [git] runner, the identity parser, the [Branch] getters
    [remote] and [upstreamWithoutRemote] and [process.platform] are
    collaborators of the module: they are variables of the section
    [BranchCommands]. *)

From Stdlib Require Import String Ascii List ZArith Lia Bool Arith.
Import ListNotations.
Local Open Scope list_scope.
Local Open Scope string_scope.

(** [++] is the concatenation of strings below, [+++] that of lists. *)
Notation "l +++ m" := (List.app l m) (at level 60, right associativity).

(** ** JavaScript string and array primitives used by the module *)

Module Js.

(** [String.prototype.split] with a separator of one code unit.  The result
    is never empty: a string without the separator is returned whole. *)
Fixpoint split (sep : ascii) (s : string) : list string :=
  match s with
  | EmptyString => [EmptyString]
  | String c rest =>
      if Ascii.eqb c sep then EmptyString :: split sep rest
      else match split sep rest with
           | piece :: pieces => String c piece :: pieces
           | [] => [String c EmptyString]
           end
  end.

(** [Array.prototype.join]. *)
Definition join (sep : string) (l : list string) : string :=
  String.concat sep l.

(** [Array.prototype.splice (start, deleteCount)] without inserted items:
    the array that is left.  A negative [start] counts from the end. *)
Definition splice {A : Type} (start deleteCount : Z) (l : list A) : list A :=
  let len := Z.of_nat (List.length l) in
  let actualStart :=
    if (start <? 0)%Z then Z.max (len + start) 0 else Z.min start len in
  let actualDeleteCount :=
    Z.min (Z.max deleteCount 0) (len - actualStart) in
  firstn (Z.to_nat actualStart) l
    +++ skipn (Z.to_nat (actualStart + actualDeleteCount)) l.

(** [String.prototype.substr (start)] for a non-negative [start]. *)
Fixpoint substr (start : nat) (s : string) : string :=
  match start, s with
  | O, _ => s
  | S _, EmptyString => EmptyString
  | S k, String _ rest => substr k rest
  end.

(** [String.prototype.startsWith]. *)
Definition startsWith (s searchString : string) : bool :=
  String.prefix searchString s.

(** [s.replace (/^heads\//, '')]: the anchored pattern matches at most
    once, at the start. *)
Definition replaceLeadingHeads (s : string) : string :=
  if startsWith s "heads/" then substr 6 s else s.

(** White space and line terminators of ECMAScript among the code units
    below 256: TAB, LF, VT, FF, CR, SP and NBSP. *)
Definition isWhiteSpace (c : ascii) : bool :=
  let n := nat_of_ascii c in
  ((9 <=? n)%nat && (n <=? 13)%nat) || (n =? 32)%nat || (n =? 160)%nat.

Fixpoint trimStart (s : string) : string :=
  match s with
  | EmptyString => EmptyString
  | String c rest => if isWhiteSpace c then trimStart rest else s
  end.

Fixpoint trimEnd (s : string) : string :=
  match s with
  | EmptyString => EmptyString
  | String c rest =>
      match trimEnd rest with
      | EmptyString => if isWhiteSpace c then EmptyString
                       else String c EmptyString
      | kept => String c kept
      end
  end.

(** [String.prototype.trim]. *)
Definition trim (s : string) : string := trimEnd (trimStart s).

(** Conversion to a string inside a template literal. *)
Definition toString (v : option string) : string :=
  match v with
  | Some s => s
  | None => "undefined"
  end.

(** Truthiness of a [string | undefined]. *)
Definition truthy (v : option string) : bool :=
  match v with
  | Some s => negb (String.length s =? 0)%nat
  | None => false
  end.

(** [Array.prototype.shift]: the removed first element. *)
Definition shift {A : Type} (l : list A) : option A := hd_error l.

End Js.

(** Does the code unit [c] occur in [s]? *)
Fixpoint occurs (c : ascii) (s : string) : bool :=
  match s with
  | EmptyString => false
  | String d rest => Ascii.eqb d c || occurs c rest
  end.

(** ** Exceptions *)

Inductive Exception : Type :=
  | TypeError                   (* a property read on [undefined] *)
  | Error (message : string).   (* [new Error (message)] *)

Inductive Result (A : Type) : Type :=
  | Ok (value : A)
  | Throw (e : Exception).

Arguments Ok {A} value.
Arguments Throw {A} e.

Definition bindR {A B : Type} (c : Result A) (k : A -> Result B) : Result B :=
  match c with
  | Ok a => k a
  | Throw e => Throw e
  end.

Notation "x <- c ;; k" := (bindR c (fun x => k))
  (at level 61, c at next level, right associativity).

(** Is the outcome an exception? *)
Definition throws {A : Type} (r : Result A) : bool :=
  match r with
  | Ok _ => false
  | Throw _ => true
  end.

(** [Array.prototype.map] with a callback [(element, index)] that may throw:
    elements are visited in order and the first exception ends the visit. *)
Fixpoint mapFrom {A B : Type} (f : A -> nat -> Result B) (ix : nat) (l : list A)
  : Result (list B) :=
  match l with
  | [] => Ok []
  | x :: rest =>
      y <- f x ix ;;
      ys <- mapFrom f (S ix) rest ;;
      Ok (y :: ys)
  end.

Definition mapWithIndex {A B : Type} (f : A -> nat -> Result B) (l : list A)
  : Result (list B) :=
  mapFrom f 0 l.

(** [Array.prototype.find] with a predicate that may throw. *)
Fixpoint findFirst {A : Type} (p : A -> Result bool) (l : list A)
  : Result (option A) :=
  match l with
  | [] => Ok None
  | x :: rest =>
      hit <- p x ;;
      if (hit : bool) then Ok (Some x) else findFirst p rest
  end.

(** ** The record format (lines 5-17) *)

Definition hexDigit (c : ascii) : option nat :=
  let n := nat_of_ascii c in
  if ((48 <=? n) && (n <=? 57))%nat then Some (n - 48)
  else if ((65 <=? n) && (n <=? 70))%nat then Some (n - 55)
  else if ((97 <=? n) && (n <=? 102))%nat then Some (n - 87)
  else None.

(** [parseInt (s, 16)] on the digits read so far: the longest prefix of
    hexadecimal digits counts. *)
Fixpoint parseHexFrom (acc : nat) (s : string) : nat :=
  match s with
  | EmptyString => acc
  | String c rest =>
      match hexDigit c with
      | Some d => parseHexFrom (16 * acc + d) rest
      | None => acc
      end
  end.

Definition delimiter : string := "1F".

(** The code unit of [String.fromCharCode (parseInt (delimiter, 16))]. *)
Definition delimiterChar : ascii := ascii_of_nat (parseHexFrom 0 delimiter).

Definition delimiterString : string := String delimiterChar EmptyString.

(** The code unit of ['\0']. *)
Definition NUL : ascii := zero.

(** The code unit of the newline. *)
Definition LF : ascii := ascii_of_nat 10.

Definition forEachRefAtoms : list string :=
  [ "%(refname)";
    "%(refname:short)";
    "%(upstream:short)";
    "%(objectname)";
    "%(author)";
    "%(parent)";
    "%(subject)";
    "%(body)" ].

Definition forEachRefFormat : string :=
  Js.join "%00" (forEachRefAtoms +++ ["%" ++ delimiter]).

(** What [git for-each-ref --format=forEachRefFormat] writes for one ref whose
    eight atoms have the values [fields]: in a format, [%(atom)] stands for
    the value of the atom and [%xx] for the code unit with hexadecimal code
    [xx], so the eight values and the delimiter are joined by NUL as the
    format joins them by [%00]; the tool ends every ref's output with a
    newline. *)
Definition emitRecord (fields : list string) : string :=
  Js.join (String NUL EmptyString) (fields +++ [delimiterString])
    ++ String LF EmptyString.

(** The text of a record before its delimiter: every field is followed by a
    NUL, the last one too. *)
Fixpoint recordBody (fields : list string) : string :=
  match fields with
  | [] => EmptyString
  | f :: rest => f ++ String NUL (recordBody rest)
  end.

(** The records of a batch as [getBranches] cuts them, written from the
    fields: the first record starts with [lead], every later one with the
    newline that ended the one before. *)
Fixpoint recordLines (lead : string) (records : list (list string))
  : list string :=
  match records with
  | [] => []
  | fields :: rest =>
      (lead ++ recordBody fields) :: recordLines (String LF EmptyString) rest
  end.

(** The batch output for the refs [records], in order. *)
Definition emitBatch (records : list (list string)) : string :=
  String.concat EmptyString (map emitRecord records).

(** A field value that keeps the record format unambiguous: neither NUL nor
    the delimiter occurs in it. *)
Definition cleanField (f : string) : bool :=
  negb (occurs NUL f) && negb (occurs delimiterChar f).

(** A record of the format: eight clean fields. *)
Definition wellFormedRecord (fields : list string) : bool :=
  (List.length fields =? 8)%nat && forallb cleanField fields.

(** Modelled from the spec: the enumeration [BranchType] of
    [../model/branch], which is not among the sources; a classification is
    Local or Remote. *)
Inductive BranchType : Type :=
  | Local
  | Remote.

(** ** The commands *)

Section BranchCommands.

(** [CommitIdentity] of [../model/commit-identity] and its static
    [parseIdentity]: a falsy result is [Ok None].  The call sites pass a
    [string | undefined]. *)
Variable CommitIdentity : Type.
Variable parseIdentity : option string -> Result (option CommitIdentity).

(** [IGitExecutionOptions] of [../core/git]. *)
Variable IGitExecutionOptions : Type.

(** [process.platform]. *)
Variable platform : string.

(** The object literal [{ sha, summary, body, author, parentSHAs }]. *)
Record BranchTip : Type := {
  sha : option string;
  summary : option string;
  body : option string;
  author : CommitIdentity;
  parentSHAs : list string
}.

(** Modelled from the spec: the class [Branch] of [../model/branch], which is
    not among the sources.  A branch has a name, an optional upstream, a tip
    and a classification: the four arguments of
    [new Branch (name, upstream, tip, type)], which the module reads back as
    [branch.name] and [branch.type]. *)
Record Branch : Type := {
  name : option string;
  upstream : option string;
  tip : BranchTip;
  type : BranchType
}.

(** The getters [remote] and [upstreamWithoutRemote] of [Branch]. *)
Variable Branch_remote : Branch -> option string.
Variable Branch_upstreamWithoutRemote : Branch -> option string.

(** Modelled from the spec: the result of [git] of [../core/git], which is
    not among the sources; the module reads the standard output and the exit
    code. *)
Record IGitResult : Type := {
  stdout : string;
  exitCode : Z
}.

(** The options object handed to [git]: the caller's [options] as they
    came, or a copy of them with [successExitCodes] set. *)
Inductive CallOptions : Type :=
  | Passed (options : option IGitExecutionOptions)
  | WithSuccessExitCodes (options : option IGitExecutionOptions)
                         (successExitCodes : list Z).

(** One invocation of the external tool: the arguments of [git (...)]. *)
Record GitCall : Type := {
  args : list string;
  path : string;
  commandName : string;
  callOptions : CallOptions
}.

(** The invocations issued so far, oldest first. *)
Definition Trace : Type := list GitCall.

(** [git] of [../core/git]: the outcome of an invocation, which may depend
    on the invocations before it (they may have changed the repository).
    [Throw] is a rejected promise. *)
Variable git_outcome : Trace -> GitCall -> Result IGitResult.

(** Computations that invoke the tool and may throw: the trace is threaded
    and kept when an exception is thrown. *)
Definition Git (A : Type) : Type := Trace -> Result A * Trace.

Definition ret {A : Type} (a : A) : Git A := fun t => (Ok a, t).

Definition lift {A : Type} (r : Result A) : Git A := fun t => (r, t).

Definition bindG {A B : Type} (c : Git A) (k : A -> Git B) : Git B :=
  fun t =>
    match c t with
    | (Ok a, t') => k a t'
    | (Throw e, t') => (Throw e, t')
    end.

Notation "x <~ c ;; k" := (bindG c (fun x => k))
  (at level 61, c at next level, right associativity).

Definition git (args : list string) (path commandName : string)
    (options : CallOptions) : Git IGitResult :=
  fun t =>
    let call := {| args := args; path := path; commandName := commandName;
                   callOptions := options |} in
    (git_outcome t call, t +++ [call]).

(** *** [getBranches] (lines 90-130) *)

(** The pieces of the record [line] at index [ix] (line 105): every record
    after the first loses the newline that precedes it. *)
Definition piecesOf (line : string) (ix : nat) : list string :=
  Js.split NUL (if (0 <? ix)%nat then Js.substr 1 line else line).

(** The callback of [lines.map] (lines 103-127). *)
Definition branchOfLine (line : string) (ix : nat) : Result Branch :=
  let pieces := piecesOf line ix in
  let ref := nth_error pieces 0 in
  let name := nth_error pieces 1 in
  let upstream := nth_error pieces 2 in
  let sha := nth_error pieces 3 in
  let authorIdentity := nth_error pieces 4 in
  author <- parseIdentity authorIdentity ;;
  match author with
  | None =>
      Throw (Error ("Couldn't parse author identity "
                      ++ Js.toString authorIdentity ++ "."))
  | Some author =>
      parentSHAs <- match nth_error pieces 5 with
                    | Some parents => Ok (Js.split " " parents)
                    | None => Throw TypeError
                    end ;;
      let summary := nth_error pieces 6 in
      let body := nth_error pieces 7 in
      let tip := {| sha := sha; summary := summary; body := body;
                    author := author; parentSHAs := parentSHAs |} in
      type <- match ref with
              | Some ref =>
                  Ok (if Js.startsWith ref "refs/head" then Local else Remote)
              | None => Throw TypeError
              end ;;
      upstream <- match upstream with
                  | Some upstream =>
                      Ok (if (0 <? String.length upstream)%nat
                          then Some upstream else None)
                  | None => Throw TypeError
                  end ;;
      Ok {| name := name; upstream := upstream; tip := tip; type := type |}
  end.

(** The records of the output [names], before they are cut into fields
    (lines 98-101). *)
Definition linesOf (names : string) : list string :=
  Js.splice (-1) 1 (Js.split delimiterChar names).

(** From the output of the tool to the branches (lines 97-129). *)
Definition decodeBranches (names : string) : Result (list Branch) :=
  let lines := linesOf names in
  branches <- mapWithIndex branchOfLine lines ;;
  Ok (if String.eqb platform "darwin" then rev branches else branches).

(** The invocation of line 96. *)
Definition listCall (repositoryPath : string) (prefixes : list string)
    (options : option IGitExecutionOptions) : GitCall :=
  {| args := ["for-each-ref"; "--format=" ++ forEachRefFormat;
              "--sort=-committerdate"]
             +++ (if (List.length prefixes =? 0)%nat
                  then ["refs/heads"; "refs/remotes"] else prefixes);
     path := repositoryPath;
     commandName := "getBranches";
     callOptions := Passed options |}.

Definition getBranches (repositoryPath : string) (prefixes : list string)
    (options : option IGitExecutionOptions) : Git (list Branch) :=
  let prefixes :=
    if (List.length prefixes =? 0)%nat then ["refs/heads"; "refs/remotes"]
    else prefixes in
  let args :=
    ["for-each-ref"; "--format=" ++ forEachRefFormat;
     "--sort=-committerdate"] +++ prefixes in
  result <~ git args repositoryPath "getBranches" (Passed options) ;;
  lift (decodeBranches (stdout result)).

(** *** [listBranch] (lines 19-52) *)

Inductive ListType : Type :=
  | ListCurrent   (* 'current' *)
  | ListLocal     (* 'local' *)
  | ListRemote    (* 'remote' *)
  | ListAll.      (* 'all' *)

(** [undefined | Branch | Branch[]]. *)
Inductive Listing : Type :=
  | One (branch : option Branch)
  | Many (branches : list Branch).

Definition isType (t : BranchType) (b : Branch) : bool :=
  match type b, t with
  | Local, Local | Remote, Remote => true
  | _, _ => false
  end.

(** The invocation of line 33. *)
Definition headCall (repositoryPath : string)
    (options : option IGitExecutionOptions) : GitCall :=
  {| args := ["rev-parse"; "--abbrev-ref"; "HEAD"];
     path := repositoryPath;
     commandName := "getCurrentBranch";
     callOptions := WithSuccessExitCodes options [0; 1; 128]%Z |}.

Definition listBranch (repositoryPath : string) (type : ListType)
    (options : option IGitExecutionOptions) : Git Listing :=
  match type with
  | ListCurrent =>
      let opts := WithSuccessExitCodes options [0; 1; 128]%Z in
      result <~ git ["rev-parse"; "--abbrev-ref"; "HEAD"] repositoryPath
                    "getCurrentBranch" opts ;;
      if (exitCode result =? 1)%Z || (exitCode result =? 128)%Z
      then ret (One None)
      else
        let name := Js.replaceLeadingHeads (Js.trim (stdout result)) in
        branches <~ getBranches repositoryPath ["refs/heads/" ++ name]
                                options ;;
        ret (One (Js.shift branches))
  | ListLocal =>
      result <~ getBranches repositoryPath [] options ;;
      ret (Many (filter (isType Local) result))
  | ListRemote =>
      result <~ getBranches repositoryPath [] options ;;
      ret (Many (filter (isType Remote) result))
  | ListAll =>
      result <~ getBranches repositoryPath [] options ;;
      ret (Many result)
  end.

(** *** [deleteBranch] (lines 75-88) *)

(** [{ force?: boolean, remote?: boolean }]. *)
Record DeleteOptions : Type := {
  force : option bool;
  remote : option bool
}.

(** Truthiness of a [boolean | undefined]. *)
Definition isTrue (v : option bool) : bool :=
  match v with
  | Some b => b
  | None => false
  end.

(** The predicate of [branches.find] (line 82). *)
Definition namedLike (requested : string) (branch : Branch) : Result bool :=
  match name branch with
  | Some n => Ok (String.eqb (Js.replaceLeadingHeads n) requested)
  | None => Throw TypeError
  end.

(** The invocation of line 80. *)
Definition deleteCall (repositoryPath name : string)
    (deleteOptions : option DeleteOptions)
    (options : option IGitExecutionOptions) : GitCall :=
  let force := match deleteOptions with
               | Some o => force o
               | None => Some false
               end in
  {| args := ["branch"; if isTrue force then "-D" else "-d"; name];
     path := repositoryPath;
     commandName := "deleteBranch";
     callOptions := Passed options |}.

(** The invocation of line 85. *)
Definition pushCall (repositoryPath : string) (branch : Branch)
    (options : option IGitExecutionOptions) : GitCall :=
  {| args := ["push"; Js.toString (Branch_remote branch);
              ":" ++ Js.toString (Branch_upstreamWithoutRemote branch)];
     path := repositoryPath;
     commandName := "deleteRemoteBranch";
     callOptions := Passed options |}.

Definition deleteBranch (repositoryPath name : string)
    (deleteOptions : option DeleteOptions)
    (options : option IGitExecutionOptions) : Git unit :=
  let force := match deleteOptions with
               | Some o => force o
               | None => Some false
               end in
  let remote := match deleteOptions with
                | Some o => remote o
                | None => Some false
                end in
  let args := ["branch"; if isTrue force then "-D" else "-d"; name] in
  branches <~ (if isTrue remote then getBranches repositoryPath [] options
               else ret []) ;;
  _ <~ git args repositoryPath "deleteBranch" (Passed options) ;;
  if isTrue remote && negb (List.length branches =? 0)%nat then
    branch <~ lift (findFirst (namedLike name) branches) ;;
    match branch with
    | Some branch =>
        if Js.truthy (Branch_remote branch) then
          _ <~ git ["push"; Js.toString (Branch_remote branch);
                    ":" ++ Js.toString (Branch_upstreamWithoutRemote branch)]
                   repositoryPath "deleteRemoteBranch" (Passed options) ;;
          ret tt
        else ret tt
    | None => ret tt
    end
  else ret tt.

(** The branches of a listing. *)
Definition branchesOf (l : Listing) : list Branch :=
  match l with
  | One (Some b) => [b]
  | One None => []
  | Many bs => bs
  end.

(** [b] is the first branch of [branches] that line 82 finds for the
    requested name. *)
Definition FirstMatch (requested : string) (branches : list Branch)
    (b : Branch) : Prop :=
  exists before after,
    branches = before +++ b :: after
    /\ namedLike requested b = Ok true
    /\ Forall (fun x => namedLike requested x = Ok false) before.

(** *** [createBranch] (lines 54-67) *)

(** [{ startPoint?: string, checkout?: boolean }]. *)
Record CreateOptions : Type := {
  startPoint : option string;
  checkout : option bool
}.

Definition createBranch (repositoryPath name : string)
    (createOptions : option CreateOptions)
    (options : option IGitExecutionOptions) : Git unit :=
  let startPoint := match createOptions with
                    | Some o => startPoint o
                    | None => None
                    end in
  let checkout := match createOptions with
                  | Some o => checkout o
                  | None => Some false
                  end in
  let args := if isTrue checkout then ["checkout"; "-b"; name]
              else ["branch"; name] in
  let args := match startPoint with
              | Some s => if Js.truthy startPoint then args +++ [s] else args
              | None => args
              end in
  _ <~ git args repositoryPath "createBranch" (Passed options) ;;
  ret tt.

(** *** [renameBranch] (lines 69-73) *)

(** [{ force?: boolean }]; the field is [force] in the source, a name that
    the options of [deleteBranch] hold here. *)
Record RenameOptions : Type := {
  renameForce : option bool
}.

Definition renameBranch (repositoryPath name newName : string)
    (renameOptions : option RenameOptions)
    (options : option IGitExecutionOptions) : Git unit :=
  let force := match renameOptions with
               | Some o => renameForce o
               | None => Some false
               end in
  let args := ["branch"; if isTrue force then "-M" else "-m"; name; newName] in
  _ <~ git args repositoryPath "renameBranch" (Passed options) ;;
  ret tt.

End BranchCommands.

Arguments Build_BranchTip {CommitIdentity}.
Arguments Build_Branch {CommitIdentity}.
Arguments sha {CommitIdentity}.
Arguments summary {CommitIdentity}.
Arguments body {CommitIdentity}.
Arguments author {CommitIdentity}.
Arguments parentSHAs {CommitIdentity}.
Arguments name {CommitIdentity}.
Arguments upstream {CommitIdentity}.
Arguments tip {CommitIdentity}.
Arguments type {CommitIdentity}.
Arguments Passed {IGitExecutionOptions}.
Arguments WithSuccessExitCodes {IGitExecutionOptions}.
Arguments Build_GitCall {IGitExecutionOptions}.
Arguments args {IGitExecutionOptions}.
Arguments path {IGitExecutionOptions}.
Arguments commandName {IGitExecutionOptions}.
Arguments callOptions {IGitExecutionOptions}.
Arguments ret {IGitExecutionOptions A}.
Arguments lift {IGitExecutionOptions A}.
Arguments bindG {IGitExecutionOptions A B}.
Arguments git {IGitExecutionOptions}.
Arguments branchOfLine {CommitIdentity}.
Arguments decodeBranches {CommitIdentity}.
Arguments listCall {IGitExecutionOptions}.
Arguments headCall {IGitExecutionOptions}.
Arguments deleteCall {IGitExecutionOptions}.
Arguments pushCall {CommitIdentity IGitExecutionOptions}.
Arguments getBranches {CommitIdentity} parseIdentity {IGitExecutionOptions}.
Arguments listBranch {CommitIdentity} parseIdentity {IGitExecutionOptions}.
Arguments deleteBranch {CommitIdentity} parseIdentity {IGitExecutionOptions}.
Arguments One {CommitIdentity}.
Arguments Many {CommitIdentity}.
Arguments branchesOf {CommitIdentity}.
Arguments isType {CommitIdentity}.
Arguments namedLike {CommitIdentity}.
Arguments FirstMatch {CommitIdentity}.
Arguments createBranch {IGitExecutionOptions}.
Arguments renameBranch {IGitExecutionOptions}.

(** ** Synthetic batches

    Branch data from which a batch output is written, to compare the decoder
    with. *)

Record BranchData : Type := {
  data_name : string;
  data_upstream : option string;
  data_sha : string;
  data_author : string;           (* the raw identity line *)
  data_parents : list string;
  data_summary : string;
  data_body : string;
  data_type : BranchType
}.

(** The full ref path: the two namespaces [getBranches] asks for by default
    are [refs/heads] and [refs/remotes]. *)
Definition refPath (d : BranchData) : string :=
  match data_type d with
  | Local => "refs/heads/" ++ data_name d
  | Remote => "refs/remotes/" ++ data_name d
  end.

(** The values of the eight atoms of [forEachRefFormat] for [d]: a branch
    without upstream has an empty [%(upstream:short)], and [%(parent)] is the
    parents separated by one space. *)
Definition fieldsOfData (d : BranchData) : list string :=
  [ refPath d;
    data_name d;
    match data_upstream d with Some u => u | None => "" end;
    data_sha d;
    data_author d;
    Js.join " " (data_parents d);
    data_summary d;
    data_body d ].

(** The components a round trip compares: name, upstream, hash, parents,
    summary, body and classification. *)
Definition BranchView : Type :=
  (option string * option string * option string * list string
   * option string * option string * BranchType)%type.

Definition viewOfData (d : BranchData) : BranchView :=
  (Some (data_name d), data_upstream d, Some (data_sha d), data_parents d,
   Some (data_summary d), Some (data_body d), data_type d).

Definition viewOfBranch {CommitIdentity : Type} (b : Branch CommitIdentity)
  : BranchView :=
  (name b, upstream b, sha (tip b), parentSHAs (tip b), summary (tip b),
   body (tip b), type b).

(** Structurally valid data: a non-empty name, an upstream that is absent or
    non-empty, no NUL and no delimiter in any text, no space inside a parent
    hash. *)
Definition validData (d : BranchData) : bool :=
  negb (String.eqb (data_name d) "")
  && cleanField (data_name d)
  && match data_upstream d with
     | Some u => negb (String.eqb u "") && cleanField u
     | None => true
     end
  && cleanField (data_sha d)
  && cleanField (data_author d)
  && forallb (fun p => cleanField p && negb (occurs " " p)) (data_parents d)
  && cleanField (data_summary d)
  && cleanField (data_body d).

(** Did the identity parser return an identity? *)
Definition accepted {CommitIdentity : Type}
    (r : Result (option CommitIdentity)) : bool :=
  match r with
  | Ok (Some _) => true
  | _ => false
  end.

(** The identity parser accepts the author line of [d]. *)
Definition authorParses {CommitIdentity : Type}
    (parseIdentity : option string -> Result (option CommitIdentity))
    (d : BranchData) : bool :=
  accepted (parseIdentity (Some (data_author d))).

(** The commit of [d] has a parent. *)
Definition hasParent (d : BranchData) : bool :=
  negb (List.length (data_parents d) =? 0)%nat.

(** Does [deleteOptions] ask for the deletion of the remote branch
    (line 77)? *)
Definition remoteRequested (deleteOptions : option DeleteOptions) : bool :=
  isTrue match deleteOptions with
         | Some o => remote o
         | None => Some false
         end.

(** The list as [getBranches] hands it out on [platform] (line 128). *)
Definition platformOrder {A : Type} (platform : string) (l : list A) : list A :=
  if String.eqb platform "darwin" then rev l else l.

(** ** Sample collaborators and inputs *)

(** A parser in the manner of [parseIdentity]: an identity line needs an
    address in angle brackets; reading [undefined] is a [TypeError]. *)
Definition sampleParser (v : option string) : Result (option string) :=
  match v with
  | Some s => Ok (if occurs "<" s && occurs ">" s then Some s else None)
  | None => Throw TypeError
  end.

(** The part of [s] before its first [/], if there is one. *)
Fixpoint beforeSlash (s : string) : option string :=
  match s with
  | EmptyString => None
  | String c rest =>
      if Ascii.eqb c "/" then Some EmptyString
      else match beforeSlash rest with
           | Some r => Some (String c r)
           | None => None
           end
  end.

(** The part of [s] after its first [/], if there is one. *)
Fixpoint afterSlash (s : string) : option string :=
  match s with
  | EmptyString => None
  | String c rest => if Ascii.eqb c "/" then Some rest else afterSlash rest
  end.

(** Getters in the manner of [Branch.remote] and
    [Branch.upstreamWithoutRemote]: the two sides of the first [/] of the
    upstream. *)
Definition sampleRemote (b : Branch string) : option string :=
  match upstream b with
  | Some u => beforeSlash u
  | None => None
  end.

Definition sampleUpstreamWithoutRemote (b : Branch string) : option string :=
  match upstream b with
  | Some u => afterSlash u
  | None => None
  end.

(** A runner that answers every invocation with exit code 0 and the same
    output. *)
Definition answering (out : string) (t : Trace unit) (c : GitCall unit)
  : Result IGitResult :=
  Ok {| stdout := out; exitCode := 0 |}.

(** A runner that answers a [rev-parse] with [head] and everything else
    with [out]. *)
Definition answeringHead (head : IGitResult) (out : string) (t : Trace unit)
    (c : GitCall unit) : Result IGitResult :=
  if String.eqb (commandName c) "getCurrentBranch" then Ok head
  else Ok {| stdout := out; exitCode := 0 |}.

Definition janeLine : string := "Jane <j@x.com> 1700000000 +0000".

(** The example of the specification: one record for [refs/heads/main]. *)
Definition mainFields : list string :=
  ["refs/heads/main"; "main"; ""; "abc123"; janeLine; ""; "Initial commit"; ""].

Definition mainBatch : string :=
  "refs/heads/main" ++ String NUL ("main" ++ String NUL (String NUL
    ("abc123" ++ String NUL (janeLine ++ String NUL (String NUL
      ("Initial commit" ++ String NUL (String NUL
        (String delimiterChar (String LF EmptyString))))))))).

(** A batch of one record of seven pieces: the body and the NUL after it are
    missing. *)
Definition sevenPieceBatch : string :=
  Js.join (String NUL EmptyString)
    ["refs/heads/main"; "main"; ""; "abc123"; janeLine; "789abc";
     "Second commit"]
  ++ String delimiterChar (String LF EmptyString).

(** A batch of two records, the second with an author line that
    [sampleParser] does not accept. *)
Definition anonymousBatch : string :=
  emitBatch
    [mainFields;
     ["refs/heads/dev"; "dev"; ""; "def456"; "nobody"; "abc123"; "Work"; ""]].

(** A batch of one record with an empty short name. *)
Definition namelessBatch : string :=
  emitBatch
    [["refs/heads/"; ""; ""; "abc123"; janeLine; "789abc"; "Second commit";
      ""]].

(** A local branch that follows a remote one, and the remote one. *)
Definition featureData : BranchData :=
  {| data_name := "feature";
     data_upstream := Some "origin/feature";
     data_sha := "def456";
     data_author := janeLine;
     data_parents := ["abc123"];
     data_summary := "Add feature";
     data_body := "First line" ++ String LF "Second line";
     data_type := Local |}.

Definition originData : BranchData :=
  {| data_name := "origin/feature";
     data_upstream := None;
     data_sha := "abc123";
     data_author := janeLine;
     data_parents := ["789abc"; "456def"];
     data_summary := "Merge";
     data_body := "";
     data_type := Remote |}.


Definition deleteWithRemote : option DeleteOptions :=
  Some {| force := None; remote := Some true |}.

Definition deleteForced : option DeleteOptions :=
  Some {| force := Some true; remote := None |}.

(** The branch of [featureData], as [sampleParser] lets it be built. *)
Definition featureBranch : Branch string :=
  {| name := Some "feature";
     upstream := Some "origin/feature";
     tip := {| sha := Some "def456";
               summary := Some "Add feature";
               body := Some ("First line" ++ String LF "Second line");
               author := janeLine;
               parentSHAs := ["abc123"] |};
     type := Local |}.

(** The second record of [anonymousBatch], as [getBranches] cuts it. *)
Definition anonymousLine : string :=
  String LF EmptyString
    ++ recordBody ["refs/heads/dev"; "dev"; ""; "def456"; "nobody"; "abc123";
                   "Work"; ""].

(** The number of occurrences of the code unit [c] in [s]. *)
Fixpoint countOf (c : ascii) (s : string) : nat :=
  match s with
  | EmptyString => 0
  | String d rest => (if Ascii.eqb d c then 1 else 0) + countOf c rest
  end.

(** The first argument of an invocation: the subcommand of the tool. *)
Definition subcommand {IGitExecutionOptions : Type}
    (c : GitCall IGitExecutionOptions) : string :=
  hd EmptyString (args c).

(** A runner on which the invocations named [failed] are rejected and every
    other one is answered with exit code 0 and [out]. *)
Definition rejecting (failed out : string) (t : Trace unit) (c : GitCall unit)
  : Result IGitResult :=
  if String.eqb (commandName c) failed then Throw (Error "exit code 1")
  else Ok {| stdout := out; exitCode := 0 |}.

(** The branch of [originData], as [sampleParser] lets it be built. *)
Definition originBranch : Branch string :=
  {| name := Some "origin/feature";
     upstream := None;
     tip := {| sha := Some "abc123";
               summary := Some "Merge";
               body := Some "";
               author := janeLine;
               parentSHAs := ["789abc"; "456def"] |};
     type := Remote |}.

(** The batch of [featureData] and [originData], in this order. *)
Definition featureBatch : string :=
  emitBatch (map fieldsOfData [featureData; originData]).

(** * Properties *)

(** ** The primitives on small inputs *)

Example split_empty : Js.split " " "" = [""].
Proof. reflexivity. Qed.

Example split_two : Js.split " " "a1 b2" = ["a1"; "b2"].
Proof. reflexivity. Qed.

Example splice_last : Js.splice (-1) 1 [1; 2; 3]%nat = [1; 2]%nat.
Proof. reflexivity. Qed.

Example splice_nothing : Js.splice (-1) 1 (@nil nat) = [].
Proof. reflexivity. Qed.

Example trim_line : Js.trim (" heads/foo" ++ String LF "") = "heads/foo".
Proof. reflexivity. Qed.

Example delimiter_is_unit_separator : delimiterChar = ascii_of_nat 31.
Proof. reflexivity. Qed.

Example format_string :
  forEachRefFormat =
  "%(refname)%00%(refname:short)%00%(upstream:short)%00%(objectname)%00%(author)%00%(parent)%00%(subject)%00%(body)%00%1F".
Proof. reflexivity. Qed.

Example main_batch_emitted : emitBatch [mainFields] = mainBatch.
Proof. reflexivity. Qed.

(** ** Splitting and joining *)

Lemma split_not_nil sep s : Js.split sep s <> [].
Proof.
  destruct s as [|c rest]; simpl; [discriminate|].
  destruct (Ascii.eqb c sep); [discriminate|].
  destruct (Js.split sep rest); discriminate.
Qed.

(** A string without the separator is one piece. *)
Lemma split_absent sep s : occurs sep s = false -> Js.split sep s = [s].
Proof.
  induction s as [|c rest IH]; simpl; intros H; [reflexivity|].
  apply orb_false_iff in H as [Hc Hrest].
  rewrite Hc, (IH Hrest). reflexivity.
Qed.

(** The first separator ends the first piece. *)
Lemma split_at_first sep a b :
  occurs sep a = false ->
  Js.split sep (a ++ String sep b) = a :: Js.split sep b.
Proof.
  induction a as [|c rest IH]; simpl; intros H.
  - rewrite Ascii.eqb_refl. reflexivity.
  - apply orb_false_iff in H as [Hc Hrest].
    rewrite Hc, (IH Hrest). reflexivity.
Qed.

Lemma occurs_app c a b : occurs c (a ++ b) = occurs c a || occurs c b.
Proof.
  induction a as [|d rest IH]; simpl; [reflexivity|].
  rewrite IH, orb_assoc. reflexivity.
Qed.

Lemma cleanField_app a b : cleanField (a ++ b) = cleanField a && cleanField b.
Proof.
  unfold cleanField. rewrite !occurs_app.
  destruct (occurs NUL a), (occurs NUL b), (occurs delimiterChar a),
    (occurs delimiterChar b); reflexivity.
Qed.

Lemma append_assoc (a b c : string) : (a ++ b) ++ c = a ++ (b ++ c).
Proof.
  induction a as [|d rest IH]; simpl; [reflexivity|]. now rewrite IH.
Qed.

Lemma append_empty_r (a : string) : a ++ "" = a.
Proof.
  induction a as [|d rest IH]; simpl; [reflexivity|]. now rewrite IH.
Qed.

(** Joining on one space and splitting on it again gives the list back,
    unless the list is empty. *)
Lemma split_join_space (l : list string) :
  l <> [] ->
  forallb (fun p => negb (occurs " " p)) l = true ->
  Js.split " " (Js.join " " l) = l.
Proof.
  induction l as [|p rest IH]; intros Hne Hall; [congruence|].
  simpl in Hall. apply andb_true_iff in Hall as [Hp Hrest].
  apply negb_true_iff in Hp.
  destruct rest as [|q rest'].
  - simpl. apply split_absent. exact Hp.
  - change (Js.join " " (p :: q :: rest'))
      with (p ++ String " " (Js.join " " (q :: rest'))).
    rewrite split_at_first by exact Hp.
    rewrite IH; [reflexivity | discriminate | exact Hrest].
Qed.

Example split_join_empty : Js.split " " (Js.join " " []) = [""].
Proof. reflexivity. Qed.

Lemma occurs_join c sep l :
  occurs c sep = false ->
  forallb (fun p => negb (occurs c p)) l = true ->
  occurs c (Js.join sep l) = false.
Proof.
  intros Hsep. induction l as [|p rest IH]; intros Hall; [reflexivity|].
  simpl in Hall. apply andb_true_iff in Hall as [Hp Hrest].
  apply negb_true_iff in Hp.
  destruct rest as [|q rest'].
  - exact Hp.
  - change (Js.join sep (p :: q :: rest'))
      with (p ++ sep ++ Js.join sep (q :: rest')).
    rewrite !occurs_app, Hp, Hsep, (IH Hrest). reflexivity.
Qed.

(** ** The records of a batch *)

Lemma join_with_delimiter fields :
  Js.join (String NUL "") (fields +++ [delimiterString])
  = recordBody fields ++ delimiterString.
Proof.
  induction fields as [|f rest IH]; [reflexivity|].
  destruct rest as [|g rest'].
  - simpl. rewrite append_assoc. reflexivity.
  - change (Js.join (String NUL "") ((f :: g :: rest') +++ [delimiterString]))
      with (f ++ String NUL
              (Js.join (String NUL "") ((g :: rest') +++ [delimiterString]))).
    rewrite IH. cbn [recordBody]. rewrite (append_assoc f). reflexivity.
Qed.

Lemma emitRecord_body fields :
  emitRecord fields
  = recordBody fields ++ String delimiterChar (String LF "").
Proof.
  unfold emitRecord. rewrite join_with_delimiter, append_assoc. reflexivity.
Qed.

Lemma emitBatch_cons fields records :
  emitBatch (fields :: records)
  = recordBody fields
      ++ String delimiterChar (String LF (emitBatch records)).
Proof.
  unfold emitBatch. simpl. rewrite emitRecord_body, append_assoc.
  destruct (map emitRecord records); simpl; reflexivity.
Qed.

Lemma splice_drops_last {A : Type} (l : list A) :
  Js.splice (-1) 1 l = removelast l.
Proof.
  unfold Js.splice. cbn [Z.ltb Z.compare].
  induction l as [|x l _] using rev_ind; [reflexivity|].
  rewrite removelast_last, length_app, Nat.add_comm. cbn [List.length Nat.add].
  replace (Z.max (Z.of_nat (S (List.length l)) + -1) 0)
    with (Z.of_nat (List.length l)) by lia.
  replace (Z.min (Z.max 1 0)
             (Z.of_nat (S (List.length l)) - Z.of_nat (List.length l)))
    with 1%Z by lia.
  rewrite Nat2Z.id.
  replace (Z.to_nat (Z.of_nat (List.length l) + 1)) with (S (List.length l))
    by lia.
  rewrite firstn_app, firstn_all, Nat.sub_diag, firstn_O, app_nil_r.
  rewrite skipn_all2 by (rewrite length_app; simpl; lia).
  now rewrite app_nil_r.
Qed.

Lemma recordBody_without_delimiter fields :
  forallb cleanField fields = true ->
  occurs delimiterChar (recordBody fields) = false.
Proof.
  induction fields as [|f rest IH]; simpl; intros H; [reflexivity|].
  apply andb_true_iff in H as [Hf Hrest].
  unfold cleanField in Hf. apply andb_true_iff in Hf as [_ Hd].
  apply negb_true_iff in Hd.
  rewrite occurs_app, Hd. simpl. now apply IH.
Qed.

(** Cutting the text of a record at the NULs gives the fields and, after the
    last NUL, one empty piece. *)
Lemma split_recordBody fields :
  forallb cleanField fields = true ->
  Js.split NUL (recordBody fields) = fields +++ [""].
Proof.
  induction fields as [|f rest IH]; simpl; intros H; [reflexivity|].
  apply andb_true_iff in H as [Hf Hrest].
  unfold cleanField in Hf. apply andb_true_iff in Hf as [Hn _].
  apply negb_true_iff in Hn.
  rewrite split_at_first by exact Hn. now rewrite IH.
Qed.

Lemma wellFormedRecord_clean fields :
  wellFormedRecord fields = true -> forallb cleanField fields = true.
Proof.
  unfold wellFormedRecord. intros H. now apply andb_true_iff in H as [_ H].
Qed.

(** Cutting a batch at the delimiters: the records, then what follows the
    last delimiter. *)
Lemma split_batch records : forall lead,
  occurs delimiterChar lead = false ->
  forallb wellFormedRecord records = true ->
  Js.split delimiterChar (lead ++ emitBatch records)
  = recordLines lead records
      +++ [match records with [] => lead | _ :: _ => String LF "" end].
Proof.
  induction records as [|fields rest IH]; intros lead Hlead Hall.
  - cbn [emitBatch map String.concat recordLines]. rewrite append_empty_r.
    now apply split_absent.
  - simpl in Hall. apply andb_true_iff in Hall as [Hf Hrest].
    rewrite emitBatch_cons, <- append_assoc.
    rewrite split_at_first.
    + change (String LF (emitBatch rest))
        with (String LF "" ++ emitBatch rest).
      rewrite IH by (reflexivity || exact Hrest).
      cbn [recordLines]. destruct rest; reflexivity.
    + rewrite occurs_app, Hlead.
      now apply recordBody_without_delimiter, wellFormedRecord_clean.
Qed.

Lemma linesOf_batch records :
  forallb wellFormedRecord records = true ->
  linesOf (emitBatch records) = recordLines "" records.
Proof.
  intros Hall. unfold linesOf. rewrite splice_drops_last.
  change (emitBatch records) with ("" ++ emitBatch records).
  rewrite split_batch by (reflexivity || exact Hall).
  apply removelast_last.
Qed.

Lemma recordLines_length records : forall lead,
  List.length (recordLines lead records) = List.length records.
Proof.
  induction records as [|fields rest IH]; intros lead; simpl;
    [reflexivity | now rewrite IH].
Qed.

Lemma recordLines_nth records : forall lead ix fields,
  nth_error records ix = Some fields ->
  nth_error (recordLines lead records) ix
  = Some ((if (0 <? ix)%nat then String LF "" else lead) ++ recordBody fields).
Proof.
  induction records as [|r rest IH]; intros lead ix fields H.
  - destruct ix; discriminate.
  - destruct ix as [|k]; simpl in H |- *.
    + now inversion H.
    + rewrite (IH _ _ _ H). now destruct k.
Qed.

(** The pieces of a record of the batch, whether it is the first or not. *)
Lemma piecesOf_record fields ix :
  forallb cleanField fields = true ->
  piecesOf ((if (0 <? ix)%nat then String LF "" else "") ++ recordBody fields)
           ix
  = fields +++ [""].
Proof.
  intros H. unfold piecesOf. destruct (0 <? ix)%nat; simpl;
    now apply split_recordBody.
Qed.

(** ** C1 *)

(** C1, as amended.  A batch written from K well-formed records is cut into
    exactly K records, in order; cutting the record at index [ix] at the NULs
    gives nine pieces: the eight fields, in order, and one empty piece, which
    stands between the NUL that follows the body and the delimiter. *)
Theorem decoder_yields_every_record :
  forall records : list (list string),
    forallb wellFormedRecord records = true ->
    List.length (linesOf (emitBatch records)) = List.length records
    /\ forall ix fields,
         nth_error records ix = Some fields ->
         exists line,
           nth_error (linesOf (emitBatch records)) ix = Some line
           /\ piecesOf line ix = fields +++ [""]
           /\ List.length (piecesOf line ix) = 9.
Proof.
  intros records Hall. rewrite linesOf_batch by exact Hall. split.
  - apply recordLines_length.
  - intros ix fields Hix.
    assert (Hwf : wellFormedRecord fields = true).
    { apply nth_error_In in Hix.
      rewrite forallb_forall in Hall. now apply Hall. }
    eexists. split; [apply recordLines_nth; exact Hix|].
    rewrite piecesOf_record by now apply wellFormedRecord_clean.
    split; [reflexivity|].
    unfold wellFormedRecord in Hwf. apply andb_true_iff in Hwf as [Hlen _].
    apply Nat.eqb_eq in Hlen. rewrite length_app, Hlen. reflexivity.
Qed.

Lemma decoder_yields_every_record_witness :
  forallb wellFormedRecord [mainFields] = true
  /\ List.length (linesOf (emitBatch [mainFields])) = 1
  /\ (nth_error [mainFields] 0 = Some mainFields
      /\ exists line,
           nth_error (linesOf (emitBatch [mainFields])) 0 = Some line
           /\ piecesOf line 0 = mainFields +++ [""]
           /\ List.length (piecesOf line 0) = 9).
Proof.
  destruct (decoder_yields_every_record [mainFields] eq_refl) as [Hlen Hrec].
  split; [reflexivity|]. split; [exact Hlen|]. split; [reflexivity|].
  exact (Hrec 0 mainFields eq_refl).
Defined.

(** C1 as stated fails: the one record of the example of the specification
    is well formed, and it is cut into nine pieces, not eight. *)
Lemma record_of_eight_fields_has_nine_pieces :
  forallb wellFormedRecord [mainFields] = true
  /\ emitBatch [mainFields] = mainBatch
  /\ exists line,
       linesOf mainBatch = [line]
       /\ List.length (piecesOf line 0) <> 8.
Proof.
  split; [reflexivity|]. split; [reflexivity|].
  eexists. split; [vm_compute; reflexivity|]. vm_compute. discriminate.
Qed.

(** ** One record *)

Section OneRecord.

Context {CommitIdentity : Type}.
Variable parseIdentity : option string -> Result (option CommitIdentity).

(** The callback on a record of six pieces or more: only the identity
    parser decides. *)
Lemma branchOfLine_pieces line ix ref nm up h raw parents rest :
  piecesOf line ix = ref :: nm :: up :: h :: raw :: parents :: rest ->
  branchOfLine parseIdentity line ix =
  match parseIdentity (Some raw) with
  | Ok (Some a) =>
      Ok {| name := Some nm;
            upstream := if (0 <? String.length up)%nat then Some up else None;
            tip := {| sha := Some h;
                      summary := nth_error rest 0;
                      body := nth_error rest 1;
                      author := a;
                      parentSHAs := Js.split " " parents |};
            type := if Js.startsWith ref "refs/head" then Local else Remote |}
  | Ok None =>
      Throw (Error ("Couldn't parse author identity " ++ raw ++ "."))
  | Throw e => Throw e
  end.
Proof.
  intros Hp. unfold branchOfLine. rewrite Hp. cbn.
  destruct (parseIdentity (Some raw)) as [[a|]|e]; reflexivity.
Qed.

(** The callback on a record of fewer than six pieces throws, whatever the
    identity parser does with what it is given. *)
Lemma branchOfLine_short line ix :
  List.length (piecesOf line ix) < 6 ->
  throws (branchOfLine parseIdentity line ix) = true.
Proof.
  intros Hlen. unfold branchOfLine.
  assert (H5 : nth_error (piecesOf line ix) 5 = None)
    by (apply nth_error_None; lia).
  rewrite H5.
  destruct (parseIdentity (nth_error (piecesOf line ix) 4)) as [[a|]|e];
    reflexivity.
Qed.

Lemma six_pieces (pieces : list string) :
  6 <= List.length pieces ->
  exists ref nm up h raw parents rest,
    pieces = ref :: nm :: up :: h :: raw :: parents :: rest.
Proof.
  intros H.
  do 6 (destruct pieces as [|? pieces]; [simpl in H; lia|]).
  repeat eexists.
Qed.

(** When and why the callback throws. *)
Lemma branchOfLine_throws line ix :
  throws (branchOfLine parseIdentity line ix)
  = (List.length (piecesOf line ix) <? 6)%nat
    || negb (accepted (parseIdentity (nth_error (piecesOf line ix) 4))).
Proof.
  destruct (Nat.ltb_spec (List.length (piecesOf line ix)) 6) as [Hlt|Hge].
  - now rewrite branchOfLine_short.
  - destruct (six_pieces _ Hge)
      as (ref & nm & up & h & raw & parents & rest & Hp).
    rewrite (branchOfLine_pieces _ _ _ _ _ _ _ _ _ Hp), Hp. cbn.
    destruct (parseIdentity (Some raw)) as [[a|]|e]; reflexivity.
Qed.

(** What a branch that the callback returns was built from. *)
Lemma branchOfLine_ok line ix b :
  branchOfLine parseIdentity line ix = Ok b ->
  exists ref nm up h raw parents rest a,
    piecesOf line ix = ref :: nm :: up :: h :: raw :: parents :: rest
    /\ parseIdentity (Some raw) = Ok (Some a)
    /\ b = {| name := Some nm;
              upstream := if (0 <? String.length up)%nat then Some up
                          else None;
              tip := {| sha := Some h;
                        summary := nth_error rest 0;
                        body := nth_error rest 1;
                        author := a;
                        parentSHAs := Js.split " " parents |};
              type := if Js.startsWith ref "refs/head" then Local
                      else Remote |}.
Proof.
  intros Hok.
  destruct (Nat.ltb_spec (List.length (piecesOf line ix)) 6) as [Hlt|Hge].
  - pose proof (branchOfLine_short line ix Hlt) as Ht.
    rewrite Hok in Ht. discriminate.
  - destruct (six_pieces _ Hge)
      as (ref & nm & up & h & raw & parents & rest & Hp).
    rewrite (branchOfLine_pieces _ _ _ _ _ _ _ _ _ Hp) in Hok.
    exists ref, nm, up, h, raw, parents, rest.
    destruct (parseIdentity (Some raw)) as [[a|]|e]; try discriminate.
    exists a. inversion Hok. now repeat split.
Qed.

End OneRecord.


Lemma length_zero_iff (s : string) :
  (0 <? String.length s)%nat = false <-> s = "".
Proof.
  destruct s; unfold Nat.ltb; simpl; split; intros H;
    reflexivity || discriminate.
Qed.

(** ** Lists of records *)

Lemma mapFrom_throws {A B : Type} (f : A -> nat -> Result B) (l : list A) :
  forall ix,
    throws (mapFrom f ix l) = true
    <-> exists i x, nth_error l i = Some x /\ throws (f x (ix + i)) = true.
Proof.
  induction l as [|x rest IH]; intros ix; cbn [mapFrom].
  - split; [discriminate|]. intros (i & y & H & _). destruct i; discriminate.
  - destruct (f x ix) as [y|e] eqn:Hx; cbn [bindR].
    + destruct (mapFrom f (S ix) rest) as [ys|e] eqn:Hrest; cbn [bindR throws].
      * split; [discriminate|]. intros (i & z & Hi & Hz).
        destruct i as [|k]; simpl in Hi.
        -- inversion Hi; subst z. rewrite Nat.add_0_r, Hx in Hz. discriminate.
        -- assert (Ht : throws (mapFrom f (S ix) rest) = true).
           { apply IH. exists k, z. split; [exact Hi|].
             now rewrite Nat.add_succ_comm. }
           rewrite Hrest in Ht. discriminate.
      * split; [|reflexivity]. intros _.
        assert (Ht : throws (mapFrom f (S ix) rest) = true)
          by now rewrite Hrest.
        apply IH in Ht as (k & z & Hk & Hz).
        exists (S k), z. split; [exact Hk|].
        now rewrite <- Nat.add_succ_comm.
    + split; [|reflexivity]. intros _. exists 0, x.
      split; [reflexivity|]. now rewrite Nat.add_0_r, Hx.
Qed.

Lemma mapFrom_In {A B : Type} (f : A -> nat -> Result B) (l : list A) :
  forall ix ys y,
    mapFrom f ix l = Ok ys -> In y ys ->
    exists i x, nth_error l i = Some x /\ f x (ix + i) = Ok y.
Proof.
  induction l as [|x rest IH]; intros ix ys y Hmap Hin; cbn [mapFrom] in Hmap.
  - inversion Hmap; subst. destruct Hin.
  - destruct (f x ix) as [z|e] eqn:Hx; cbn [bindR] in Hmap; [|discriminate].
    destruct (mapFrom f (S ix) rest) as [zs|e] eqn:Hrest; cbn [bindR] in Hmap;
      [|discriminate].
    inversion Hmap; subst ys. destruct Hin as [->|Hin].
    + exists 0, x. split; [reflexivity|]. now rewrite Nat.add_0_r.
    + destruct (IH _ _ _ Hrest Hin) as (k & w & Hk & Hw).
      exists (S k), w. split; [exact Hk|]. now rewrite <- Nat.add_succ_comm.
Qed.

Lemma decodeBranches_throws {CommitIdentity : Type}
    (parseIdentity : option string -> Result (option CommitIdentity))
    (platform names : string) :
  throws (decodeBranches parseIdentity platform names)
  = throws (mapWithIndex (branchOfLine parseIdentity) (linesOf names)).
Proof.
  unfold decodeBranches.
  destruct (mapWithIndex (branchOfLine parseIdentity) (linesOf names));
    reflexivity.
Qed.

(** ** The tool's invocations *)

Section Invocations.

Context {CommitIdentity IGitExecutionOptions : Type}.
Variable parseIdentity : option string -> Result (option CommitIdentity).
Variable platform : string.
Variable git_outcome :
  Trace IGitExecutionOptions -> GitCall IGitExecutionOptions
  -> Result IGitResult.

(** [getBranches] issues one invocation and decodes what it prints. *)
Lemma getBranches_run path prefixes options t :
  getBranches parseIdentity platform git_outcome path prefixes options t
  = (match git_outcome t (listCall path prefixes options) with
     | Ok r => decodeBranches parseIdentity platform (stdout r)
     | Throw e => Throw e
     end,
     t +++ [listCall path prefixes options]).
Proof.
  unfold getBranches, bindG, git, lift, listCall.
  destruct (git_outcome t _) as [r|e]; reflexivity.
Qed.

(** The three list-valued listings are [getBranches] followed by a filter. *)
Lemma listBranch_many_run path type options t :
  type <> ListCurrent ->
  listBranch parseIdentity platform git_outcome path type options t
  = (match git_outcome t (listCall path [] options) with
     | Ok r =>
         match decodeBranches parseIdentity platform (stdout r) with
         | Ok bs =>
             Ok (Many match type with
                      | ListLocal => filter (isType Local) bs
                      | ListRemote => filter (isType Remote) bs
                      | _ => bs
                      end)
         | Throw e => Throw e
         end
     | Throw e => Throw e
     end,
     t +++ [listCall path [] options]).
Proof.
  intros Htype.
  destruct type; [congruence| | |];
    unfold listBranch, bindG; rewrite getBranches_run;
    (destruct (git_outcome t _) as [r|e]; [|reflexivity]);
    destruct (decodeBranches parseIdentity platform (stdout r));
    reflexivity.
Qed.

(** The current-branch listing after a [rev-parse] that returned with an
    exit code other than 1 and 128. *)
Lemma listBranch_current_run path options t head :
  git_outcome t (headCall path options) = Ok head ->
  (exitCode head =? 1)%Z || (exitCode head =? 128)%Z = false ->
  listBranch parseIdentity platform git_outcome path ListCurrent options t
  = (match git_outcome (t +++ [headCall path options])
             (listCall path
                ["refs/heads/"
                   ++ Js.replaceLeadingHeads (Js.trim (stdout head))]
                options) with
     | Ok listed =>
         match decodeBranches parseIdentity platform (stdout listed) with
         | Ok branches => Ok (One (Js.shift branches))
         | Throw e => Throw e
         end
     | Throw e => Throw e
     end,
     t +++ [headCall path options;
            listCall path
              ["refs/heads/"
                 ++ Js.replaceLeadingHeads (Js.trim (stdout head))]
              options]).
Proof.
  intros Hrun Hcode. unfold listBranch, bindG at 1, git.
  fold (headCall path options). rewrite Hrun, Hcode.
  unfold bindG. rewrite getBranches_run.
  destruct (git_outcome _ (listCall path _ options)) as [listed|e].
  - destruct (decodeBranches parseIdentity platform (stdout listed));
      unfold ret; rewrite <- app_assoc; reflexivity.
  - rewrite <- app_assoc. reflexivity.
Qed.

End Invocations.

(** ** The classification *)


(** ** C8 *)

(** C8.  A record that is decoded has a third piece, the short upstream
    name; the upstream of the branch is present exactly when that piece is
    not the empty string, and it is that piece then. *)
Theorem upstream_present_iff_field_nonempty :
  forall (CommitIdentity : Type)
         (parseIdentity : option string -> Result (option CommitIdentity))
         (line : string) (ix : nat) (b : Branch CommitIdentity),
    branchOfLine parseIdentity line ix = Ok b ->
    exists field,
      nth_error (piecesOf line ix) 2 = Some field
      /\ (upstream b <> None <-> field <> "")
      /\ (forall u, upstream b = Some u -> u = field).
Proof.
  intros CI parse line ix b Hok.
  destruct (branchOfLine_ok parse line ix b Hok)
    as (ref & nm & up & h & raw & parents & rest & a & Hp & _ & ->).
  exists up. rewrite Hp. split; [reflexivity|]. cbn [upstream].
  destruct (0 <? String.length up)%nat eqn:Hlen.
  - split.
    + split; [|discriminate]. intros _ Hup.
      apply length_zero_iff in Hup. congruence.
    + intros u Hu. now inversion Hu.
  - apply length_zero_iff in Hlen. subst up. split.
    + split; intros H; congruence.
    + intros u Hu. discriminate.
Qed.

Lemma upstream_present_iff_field_nonempty_witness :
  branchOfLine sampleParser (recordBody (fieldsOfData featureData)) 0
  = Ok featureBranch
  /\ exists field,
       nth_error (piecesOf (recordBody (fieldsOfData featureData)) 0) 2
       = Some field
       /\ (upstream featureBranch <> None <-> field <> "")
       /\ (forall u, upstream featureBranch = Some u -> u = field).
Proof.
  split; [reflexivity|].
  apply (upstream_present_iff_field_nonempty string sampleParser
           (recordBody (fieldsOfData featureData)) 0 featureBranch).
  reflexivity.
Defined.

(** ** C5 *)

(** Decoding a batch throws when the callback throws on one record. *)
Lemma decodeBranches_throws_at {CommitIdentity : Type}
    (parseIdentity : option string -> Result (option CommitIdentity))
    (platform names : string) ix line :
  nth_error (linesOf names) ix = Some line ->
  throws (branchOfLine parseIdentity line ix) = true ->
  throws (decodeBranches parseIdentity platform names) = true.
Proof.
  intros Hline Hthrows. rewrite decodeBranches_throws. unfold mapWithIndex.
  apply mapFrom_throws. now exists ix, line.
Qed.

(** C5, as amended.  The number of pieces of a record is not compared with
    the number the format promises.  The listing fails exactly when some
    record has fewer than six pieces (the pieces up to the parents are read
    with a property access each) or an author piece for which the identity
    parser returns no identity; every other batch is decoded, whatever the
    number of pieces of its records. *)
Theorem listing_fails_iff_short_or_unparsed :
  forall (CommitIdentity : Type)
         (parseIdentity : option string -> Result (option CommitIdentity))
         (platform names : string),
    throws (decodeBranches parseIdentity platform names) = true
    <-> exists ix line,
          nth_error (linesOf names) ix = Some line
          /\ (List.length (piecesOf line ix) < 6
              \/ accepted (parseIdentity (nth_error (piecesOf line ix) 4))
                 = false).
Proof.
  intros CI parse platform names.
  rewrite decodeBranches_throws. unfold mapWithIndex.
  rewrite mapFrom_throws. cbn [Nat.add].
  split; intros (ix & line & Hline & H); exists ix, line;
    (split; [exact Hline|]).
  - rewrite branchOfLine_throws in H.
    apply orb_true_iff in H as [H|H].
    + left. now apply Nat.ltb_lt.
    + right. now apply negb_true_iff.
  - rewrite branchOfLine_throws. apply orb_true_iff.
    destruct H as [H|H].
    + left. now apply Nat.ltb_lt.
    + right. now apply negb_true_iff.
Qed.

(** C5 as stated fails: a record of seven pieces, one that has neither the
    eight fields of the format nor its nine pieces, is decoded into a
    branch; the body of its tip is [undefined]. *)
Lemma seven_pieces_are_tolerated :
  exists line,
    linesOf sevenPieceBatch = [line]
    /\ List.length (piecesOf line 0) = 7
    /\ decodeBranches sampleParser "linux" sevenPieceBatch
       = Ok [ {| name := Some "main";
                 upstream := None;
                 tip := {| sha := Some "abc123";
                           summary := Some "Second commit";
                           body := None;
                           author := janeLine;
                           parentSHAs := ["789abc"] |};
                 type := Local |} ].
Proof.
  eexists. split; [vm_compute; reflexivity|]. split; vm_compute; reflexivity.
Qed.

(** ** C6 *)

(** C6.  When the identity parser returns no identity for the author piece of
    some record of the batch that a ref listing printed, decoding the batch
    throws, and so does every operation that reads it: [getBranches], the
    three list-valued listings, and the current-branch listing whose second
    invocation it is.  No list and no branch is returned. *)
Theorem unparsed_identity_aborts_listing :
  forall (CommitIdentity IGitExecutionOptions : Type)
         (parseIdentity : option string -> Result (option CommitIdentity))
         (platform : string)
         (git_outcome : Trace IGitExecutionOptions
                        -> GitCall IGitExecutionOptions -> Result IGitResult)
         (path : string) (prefixes : list string)
         (options : option IGitExecutionOptions)
         (t : Trace IGitExecutionOptions) (r : IGitResult)
         (ix : nat) (line raw : string),
    git_outcome t (listCall path prefixes options) = Ok r ->
    nth_error (linesOf (stdout r)) ix = Some line ->
    nth_error (piecesOf line ix) 4 = Some raw ->
    parseIdentity (Some raw) = Ok None ->
    throws (decodeBranches parseIdentity platform (stdout r)) = true
    /\ throws (fst (getBranches parseIdentity platform git_outcome
                                path prefixes options t)) = true
    /\ (prefixes = [] ->
        forall type,
          type <> ListCurrent ->
          throws (fst (listBranch parseIdentity platform git_outcome
                                  path type options t)) = true)
    /\ (forall t0 head,
          t = t0 +++ [headCall path options] ->
          git_outcome t0 (headCall path options) = Ok head ->
          exitCode head = 0%Z ->
          prefixes = ["refs/heads/"
                        ++ Js.replaceLeadingHeads (Js.trim (stdout head))] ->
          throws (fst (listBranch parseIdentity platform git_outcome
                                  path ListCurrent options t0)) = true).
Proof.
  intros CI Opts parse platform git_outcome path prefixes options t r ix line
    raw Hrun Hline Hraw Hparse.
  assert (Hdec : throws (decodeBranches parse platform (stdout r)) = true).
  { apply (decodeBranches_throws_at parse platform (stdout r) ix line Hline).
    rewrite branchOfLine_throws, Hraw, Hparse. apply orb_true_r. }
  split; [exact Hdec|]. split; [|split].
  - rewrite getBranches_run, Hrun. exact Hdec.
  - intros -> type Htype.
    rewrite listBranch_many_run by exact Htype. rewrite Hrun. cbn [fst].
    destruct (decodeBranches parse platform (stdout r));
      [discriminate | reflexivity].
  - intros t0 head -> Hhead Hcode ->.
    rewrite (listBranch_current_run parse platform git_outcome path options
               t0 head Hhead)
      by (rewrite Hcode; reflexivity).
    rewrite Hrun. cbn [fst].
    destruct (decodeBranches parse platform (stdout r));
      [discriminate | reflexivity].
Qed.

Lemma unparsed_identity_aborts_listing_witness :
  (answering anonymousBatch [] (listCall "/repo" [] None)
   = Ok {| stdout := anonymousBatch; exitCode := 0 |}
   /\ nth_error (linesOf anonymousBatch) 1 = Some anonymousLine
   /\ nth_error (piecesOf anonymousLine 1) 4 = Some "nobody"
   /\ sampleParser (Some "nobody") = Ok None)
  /\ throws (decodeBranches sampleParser "linux" anonymousBatch) = true
  /\ throws (fst (getBranches sampleParser "linux" (answering anonymousBatch)
                              "/repo" [] None [])) = true
  /\ forall type,
       type <> ListCurrent ->
       throws (fst (listBranch sampleParser "linux" (answering anonymousBatch)
                               "/repo" type None [])) = true.
Proof.
  split; [repeat split|].
  destruct (unparsed_identity_aborts_listing string unit sampleParser "linux"
              (answering anonymousBatch) "/repo" [] None []
              {| stdout := anonymousBatch; exitCode := 0 |} 1 anonymousLine
              "nobody" eq_refl eq_refl eq_refl eq_refl)
    as (Hdec & Hget & Hmany & _).
  split; [exact Hdec|]. split; [exact Hget|]. exact (Hmany eq_refl).
Defined.

(** ** C7 *)

(** C7, on the code.  The batch of the example is decoded, when the identity
    parser accepts the author line, into one branch that is Local, named
    [main], without upstream, with hash [abc123] and summary
    [Initial commit]; its parent list is not empty: it is the list of one
    empty string that splitting the empty parent field gives. *)
Theorem example_batch_decoded :
  forall (CommitIdentity : Type)
         (parseIdentity : option string -> Result (option CommitIdentity))
         (platform : string),
    decodeBranches parseIdentity platform mainBatch
    = match parseIdentity (Some janeLine) with
      | Ok (Some a) =>
          Ok [ {| name := Some "main";
                  upstream := None;
                  tip := {| sha := Some "abc123";
                            summary := Some "Initial commit";
                            body := Some "";
                            author := a;
                            parentSHAs := [""] |};
                  type := Local |} ]
      | Ok None =>
          Throw (Error ("Couldn't parse author identity " ++ janeLine ++ "."))
      | Throw e => Throw e
      end.
Proof.
  intros CI parse platform. unfold decodeBranches.
  replace (linesOf mainBatch) with [recordBody mainFields]
    by (vm_compute; reflexivity).
  unfold mapWithIndex. cbn [mapFrom].
  rewrite (branchOfLine_pieces parse (recordBody mainFields) 0
             "refs/heads/main" "main" "" "abc123" janeLine ""
             ["Initial commit"; ""; ""])
    by (vm_compute; reflexivity).
  destruct (parse (Some janeLine)) as [[a|]|e]; cbn; try reflexivity.
  destruct (platform =? "darwin"); reflexivity.
Qed.

(** ** C2 *)

Lemma cleanField_join_space (l : list string) :
  forallb (fun p => cleanField p && negb (occurs " " p)) l = true ->
  cleanField (Js.join " " l) = true.
Proof.
  intros H. unfold cleanField.
  rewrite !occurs_join; try reflexivity;
    apply forallb_forall; intros p Hp;
    rewrite forallb_forall in H; specialize (H p Hp);
    apply andb_true_iff in H as [Hc _]; unfold cleanField in Hc;
    apply andb_true_iff in Hc as [Hn Hd]; assumption.
Qed.

Lemma parents_without_space (l : list string) :
  forallb (fun p => cleanField p && negb (occurs " " p)) l = true ->
  forallb (fun p => negb (occurs " " p)) l = true.
Proof.
  intros H. apply forallb_forall. intros p Hp.
  rewrite forallb_forall in H. specialize (H p Hp).
  now apply andb_true_iff in H as [_ H].
Qed.

(** The record written from valid data is a record of the format. *)
Lemma fieldsOfData_wellFormed d :
  validData d = true -> wellFormedRecord (fieldsOfData d) = true.
Proof.
  unfold validData. intros H. rewrite !andb_true_iff in H.
  destruct H as (((((((Hne & Hname) & Hup) & Hsha) & Hauthor) & Hparents)
                  & Hsummary) & Hbody).
  unfold wellFormedRecord, fieldsOfData. cbn [List.length Nat.eqb andb forallb].
  rewrite !andb_true_iff.
  repeat match goal with |- _ /\ _ => split end;
    try assumption; try reflexivity.
  - unfold refPath. destruct (data_type d); rewrite cleanField_app;
      apply andb_true_iff; split; (reflexivity || assumption).
  - destruct (data_upstream d) as [u|]; [|reflexivity].
    now apply andb_true_iff in Hup as [_ Hup].
  - now apply cleanField_join_space.
Qed.

(** The callback on the record of valid data with a parent. *)
Lemma branchOfLine_data {CommitIdentity : Type}
    (parseIdentity : option string -> Result (option CommitIdentity)) d ix :
  validData d = true ->
  authorParses parseIdentity d = true ->
  hasParent d = true ->
  exists b,
    branchOfLine parseIdentity
      ((if (0 <? ix)%nat then String LF "" else "")
         ++ recordBody (fieldsOfData d)) ix = Ok b
    /\ viewOfBranch b = viewOfData d.
Proof.
  intros Hvalid Hparse Hparent.
  pose proof (fieldsOfData_wellFormed d Hvalid) as Hwf.
  apply wellFormedRecord_clean in Hwf.
  rewrite (branchOfLine_pieces parseIdentity _ ix (refPath d) (data_name d)
             (match data_upstream d with Some u => u | None => "" end)
             (data_sha d) (data_author d) (Js.join " " (data_parents d))
             [data_summary d; data_body d; ""])
    by (rewrite piecesOf_record by exact Hwf; reflexivity).
  unfold authorParses, accepted in Hparse.
  destruct (parseIdentity (Some (data_author d))) as [[a|]|e];
    try discriminate.
  eexists. split; [reflexivity|].
  unfold viewOfBranch, viewOfData. cbn.
  unfold validData in Hvalid. rewrite !andb_true_iff in Hvalid.
  destruct Hvalid as (((((((Hne & Hname) & Hup) & Hsha) & Hauthor) & Hparents)
                       & Hsummary) & Hbody).
  repeat f_equal.
  - destruct (data_upstream d) as [u|]; [|reflexivity].
    apply andb_true_iff in Hup as [Hup _]. apply negb_true_iff in Hup.
    destruct u; [discriminate | reflexivity].
  - apply split_join_space.
    + unfold hasParent in Hparent. destruct (data_parents d);
        [discriminate | discriminate].
    + now apply parents_without_space.
  - unfold refPath. destruct (data_type d); reflexivity.
Qed.

(** The callbacks on the records of a batch written from valid data. *)
Lemma mapFrom_data {CommitIdentity : Type}
    (parseIdentity : option string -> Result (option CommitIdentity)) ds :
  forall ix,
    forallb validData ds = true ->
    forallb (authorParses parseIdentity) ds = true ->
    forallb hasParent ds = true ->
    exists bs,
      mapFrom (branchOfLine parseIdentity) ix
        (recordLines (if (0 <? ix)%nat then String LF "" else "")
                     (map fieldsOfData ds)) = Ok bs
      /\ map viewOfBranch bs = map viewOfData ds.
Proof.
  induction ds as [|d rest IH]; intros ix Hvalid Hparse Hparent.
  - exists []. split; reflexivity.
  - cbn [forallb] in Hvalid, Hparse, Hparent.
    apply andb_true_iff in Hvalid as [Hd Hvalid].
    apply andb_true_iff in Hparse as [Hp Hparse].
    apply andb_true_iff in Hparent as [Hq Hparent].
    destruct (branchOfLine_data parseIdentity d ix Hd Hp Hq) as (b & Hb & Hview).
    destruct (IH (S ix) Hvalid Hparse Hparent) as (bs & Hbs & Hviews).
    exists (b :: bs). cbn [map recordLines mapFrom].
    rewrite Hb. cbn [bindR].
    change (if (0 <? S ix)%nat then String LF "" else "")
      with (String LF "") in Hbs.
    rewrite Hbs. cbn [bindR]. split; [reflexivity|].
    cbn [map]. now rewrite Hview, Hviews.
Qed.

(** C2, as amended.  A batch written from structurally valid branch data
    whose author lines the identity parser accepts and whose commits each
    have a parent is decoded, and the branches have the name, upstream, hash,
    parents, summary, body and classification of the data: in the order of
    the data on a platform other than [darwin], in the reverse order on
    [darwin]. *)
Theorem round_trip_in_platform_order :
  forall (CommitIdentity : Type)
         (parseIdentity : option string -> Result (option CommitIdentity))
         (platform : string) (ds : list BranchData),
    forallb validData ds = true ->
    forallb (authorParses parseIdentity) ds = true ->
    forallb hasParent ds = true ->
    exists bs,
      decodeBranches parseIdentity platform (emitBatch (map fieldsOfData ds))
      = Ok bs
      /\ map viewOfBranch bs = platformOrder platform (map viewOfData ds).
Proof.
  intros CI parse platform ds Hvalid Hparse Hparent.
  assert (Hwf : forallb wellFormedRecord (map fieldsOfData ds) = true).
  { apply forallb_forall. intros r Hr. apply in_map_iff in Hr as (d & <- & Hd).
    apply fieldsOfData_wellFormed.
    rewrite forallb_forall in Hvalid. now apply Hvalid. }
  destruct (mapFrom_data parse ds 0 Hvalid Hparse Hparent) as (bs & Hbs & Hviews).
  unfold decodeBranches, mapWithIndex. rewrite linesOf_batch by exact Hwf.
  cbn [Nat.ltb Nat.leb] in Hbs. rewrite Hbs. cbn [bindR]. unfold platformOrder.
  destruct (platform =? "darwin").
  - exists (rev bs). split; [reflexivity|]. now rewrite map_rev, Hviews.
  - exists bs. split; [reflexivity | exact Hviews].
Qed.

Lemma round_trip_in_platform_order_witness :
  (forallb validData [featureData; originData] = true
   /\ forallb (authorParses sampleParser) [featureData; originData] = true
   /\ forallb hasParent [featureData; originData] = true)
  /\ exists bs,
       decodeBranches sampleParser "linux"
         (emitBatch (map fieldsOfData [featureData; originData])) = Ok bs
       /\ map viewOfBranch bs
          = platformOrder "linux" (map viewOfData [featureData; originData]).
Proof.
  split; [repeat split|].
  apply (round_trip_in_platform_order string sampleParser "linux"
           [featureData; originData]); reflexivity.
Defined.

(** C2 as stated fails: on [darwin] the branches of valid data come back in
    the reverse order. *)
Lemma round_trip_reversed_on_darwin :
  forallb validData [featureData; originData] = true
  /\ exists bs,
       decodeBranches sampleParser "darwin"
         (emitBatch (map fieldsOfData [featureData; originData])) = Ok bs
       /\ map viewOfBranch bs
          = [viewOfData originData; viewOfData featureData]
       /\ map viewOfBranch bs
          <> map viewOfData [featureData; originData].
Proof.
  split; [reflexivity|]. eexists.
  split; [vm_compute; reflexivity|]. split; [reflexivity|].
  vm_compute. discriminate.
Qed.

(** ** C3 *)

Lemma replaceLeadingHeads_strips (n : string) :
  Js.replaceLeadingHeads ("heads/" ++ n) = n.
Proof.
  unfold Js.replaceLeadingHeads, Js.startsWith.
  replace (String.prefix "heads/" ("heads/" ++ n)) with true
    by (destruct n; reflexivity).
  reflexivity.
Qed.

(** C3.  When the [rev-parse] invocation returns with exit code 1 or 128,
    the current branch is [undefined] and nothing else is invoked.  When it
    returns with exit code 0 and the trimmed output is [heads/] followed by
    [n], the second invocation is the ref listing restricted to
    [refs/heads/n], and the current branch is the first branch decoded from
    its output. *)
Theorem current_branch_resolution :
  forall (CommitIdentity IGitExecutionOptions : Type)
         (parseIdentity : option string -> Result (option CommitIdentity))
         (platform : string)
         (git_outcome : Trace IGitExecutionOptions
                        -> GitCall IGitExecutionOptions -> Result IGitResult)
         (path : string) (options : option IGitExecutionOptions)
         (t : Trace IGitExecutionOptions) (r : IGitResult),
    git_outcome t (headCall path options) = Ok r ->
    ((exitCode r = 1 \/ exitCode r = 128)%Z ->
     listBranch parseIdentity platform git_outcome path ListCurrent options t
     = (Ok (One None), t +++ [headCall path options]))
    /\ (exitCode r = 0%Z ->
        forall n,
          Js.trim (stdout r) = "heads/" ++ n ->
          listBranch parseIdentity platform git_outcome path ListCurrent
                     options t
          = (match git_outcome (t +++ [headCall path options])
                     (listCall path ["refs/heads/" ++ n] options) with
             | Ok listed =>
                 match decodeBranches parseIdentity platform
                         (stdout listed) with
                 | Ok branches => Ok (One (Js.shift branches))
                 | Throw e => Throw e
                 end
             | Throw e => Throw e
             end,
             t +++ [headCall path options;
                    listCall path ["refs/heads/" ++ n] options])).
Proof.
  intros CI Opts parse platform git_outcome path options t r Hrun.
  split.
  - intros Hcode. unfold listBranch, bindG, git.
    fold (headCall path options). rewrite Hrun.
    replace ((exitCode r =? 1)%Z || (exitCode r =? 128)%Z) with true;
      [reflexivity|].
    symmetry. apply orb_true_iff.
    destruct Hcode as [H|H]; [left | right]; now apply Z.eqb_eq.
  - intros Hcode n Hname.
    rewrite (listBranch_current_run parse platform git_outcome path options
               t r Hrun)
      by (rewrite Hcode; reflexivity).
    rewrite Hname, replaceLeadingHeads_strips. reflexivity.
Qed.

Lemma current_branch_resolution_witness :
  (answeringHead {| stdout := ""; exitCode := 128 |} mainBatch []
     (headCall "/repo" None)
   = Ok {| stdout := ""; exitCode := 128 |}
   /\ listBranch sampleParser "linux"
        (answeringHead {| stdout := ""; exitCode := 128 |} mainBatch)
        "/repo" ListCurrent None []
      = (Ok (One None), [headCall "/repo" None]))
  /\ (answeringHead {| stdout := "heads/foo" ++ String LF ""; exitCode := 0 |}
        mainBatch [] (headCall "/repo" None)
      = Ok {| stdout := "heads/foo" ++ String LF ""; exitCode := 0 |}
      /\ snd (listBranch sampleParser "linux"
                (answeringHead
                   {| stdout := "heads/foo" ++ String LF ""; exitCode := 0 |}
                   mainBatch)
                "/repo" ListCurrent None [])
         = [headCall "/repo" None; listCall "/repo" ["refs/heads/foo"] None]).
Proof.
  split; (split; [reflexivity|]).
  - apply (current_branch_resolution string unit sampleParser "linux"
             (answeringHead {| stdout := ""; exitCode := 128 |} mainBatch)
             "/repo" None [] {| stdout := ""; exitCode := 128 |} eq_refl).
    right. reflexivity.
  - rewrite (proj2 (current_branch_resolution string unit sampleParser "linux"
                      (answeringHead
                         {| stdout := "heads/foo" ++ String LF "";
                            exitCode := 0 |} mainBatch)
                      "/repo" None []
                      {| stdout := "heads/foo" ++ String LF "";
                         exitCode := 0 |} eq_refl)
               eq_refl "foo" eq_refl).
    reflexivity.
Defined.

Lemma classic_current (type : ListType) :
  type = ListCurrent \/ type <> ListCurrent.
Proof.
  destruct type; [now left | right; discriminate ..].
Qed.

(** ** C9 *)

Lemma decodeBranches_In {CommitIdentity : Type}
    (parseIdentity : option string -> Result (option CommitIdentity))
    (platform names : string) bs b :
  decodeBranches parseIdentity platform names = Ok bs ->
  In b bs ->
  exists ix line,
    nth_error (linesOf names) ix = Some line
    /\ branchOfLine parseIdentity line ix = Ok b.
Proof.
  unfold decodeBranches, mapWithIndex. intros Hdec Hin.
  destruct (mapFrom (branchOfLine parseIdentity) 0 (linesOf names))
    as [built|e] eqn:Hmap; cbn [bindR] in Hdec; [|discriminate].
  inversion Hdec; subst bs.
  assert (Hb : In b built).
  { destruct (platform =? "darwin"); [now apply in_rev | exact Hin]. }
  exact (mapFrom_In _ _ _ _ _ Hmap Hb).
Qed.

Lemma listBranch_In {CommitIdentity IGitExecutionOptions : Type}
    (parseIdentity : option string -> Result (option CommitIdentity))
    (platform : string)
    (git_outcome : Trace IGitExecutionOptions
                   -> GitCall IGitExecutionOptions -> Result IGitResult)
    path type options t listing b :
  fst (listBranch parseIdentity platform git_outcome path type options t)
  = Ok listing ->
  In b (branchesOf listing) ->
  exists t' prefixes r bs,
    git_outcome t' (listCall path prefixes options) = Ok r
    /\ decodeBranches parseIdentity platform (stdout r) = Ok bs
    /\ In b bs.
Proof.
  intros Hrun Hin.
  destruct (classic_current type) as [->|Hmany].
  - unfold listBranch, bindG at 1, git in Hrun.
    destruct (git_outcome t _) as [r|e]; [|discriminate].
    destruct ((exitCode r =? 1)%Z || (exitCode r =? 128)%Z).
    + inversion Hrun; subst listing. destruct Hin.
    + unfold bindG in Hrun. rewrite getBranches_run in Hrun.
      match type of Hrun with
      | context [git_outcome ?t' (listCall path ?pre options)] =>
          destruct (git_outcome t' (listCall path pre options))
            as [listed|e] eqn:Hlisted; [|discriminate];
          exists t', pre, listed
      end.
      destruct (decodeBranches parseIdentity platform (stdout listed))
        as [bs|e] eqn:Hdec; [|discriminate].
      exists bs. split; [exact Hlisted|]. split; [exact Hdec || reflexivity|].
      inversion Hrun; subst listing.
      destruct bs as [|b0 bs]; [destruct Hin|].
      destruct Hin as [->|[]]. now left.
  - rewrite listBranch_many_run in Hrun by exact Hmany. cbn [fst] in Hrun.
    destruct (git_outcome t (listCall path [] options)) as [r|e] eqn:Hr;
      [|discriminate].
    destruct (decodeBranches parseIdentity platform (stdout r))
      as [bs|e] eqn:Hdec; [|discriminate].
    exists t, [], r, bs. split; [exact Hr|]. split; [exact Hdec || reflexivity|].
    inversion Hrun; subst listing. cbn [branchesOf] in Hin.
    destruct type; try (apply filter_In in Hin as [Hin _]); exact Hin.
Qed.

(** C9, as amended.  Every branch that a listing operation returns was built
    by the callback from one record of the output of a ref listing: its name
    is the second piece of the record as it stands (it is empty when the
    piece is; an empty name is not rejected), its hash is the fourth piece,
    and its summary and body are defined when the record has eight pieces or
    more. *)
Theorem listed_branch_built_from_record :
  forall (CommitIdentity IGitExecutionOptions : Type)
         (parseIdentity : option string -> Result (option CommitIdentity))
         (platform : string)
         (git_outcome : Trace IGitExecutionOptions
                        -> GitCall IGitExecutionOptions -> Result IGitResult)
         (path : string) (type : ListType)
         (options : option IGitExecutionOptions)
         (t : Trace IGitExecutionOptions)
         (listing : Listing CommitIdentity) (b : Branch CommitIdentity),
    fst (listBranch parseIdentity platform git_outcome path type options t)
    = Ok listing ->
    In b (branchesOf listing) ->
    exists t' prefixes r ix line nm h,
      git_outcome t' (listCall path prefixes options) = Ok r
      /\ nth_error (linesOf (stdout r)) ix = Some line
      /\ branchOfLine parseIdentity line ix = Ok b
      /\ nth_error (piecesOf line ix) 1 = Some nm
      /\ name b = Some nm
      /\ nth_error (piecesOf line ix) 3 = Some h
      /\ sha (tip b) = Some h
      /\ (8 <= List.length (piecesOf line ix) ->
          summary (tip b) <> None /\ body (tip b) <> None).
Proof.
  intros CI Opts parse platform git_outcome path type options t listing b
    Hrun Hin.
  destruct (listBranch_In parse platform git_outcome path type options t
              listing b Hrun Hin)
    as (t' & prefixes & r & bs & Hr & Hdec & Hb).
  destruct (decodeBranches_In parse platform (stdout r) bs b Hdec Hb)
    as (ix & line & Hline & Hbuilt).
  destruct (branchOfLine_ok parse line ix b Hbuilt)
    as (ref & nm & up & h & raw & parents & rest & a & Hp & _ & Heq).
  exists t', prefixes, r, ix, line, nm, h.
  rewrite Hp. subst b. cbn.
  repeat match goal with |- _ /\ _ => split end;
    try reflexivity; try assumption.
  intros Hlen. destruct rest as [|s0 [|b0 rest]]; cbn in Hlen; try lia.
  split; discriminate.
Qed.

Lemma listed_branch_built_from_record_witness :
  (fst (listBranch sampleParser "linux"
          (answering (emitBatch [fieldsOfData featureData])) "/repo" ListAll
          None [])
   = Ok (Many [featureBranch])
   /\ In featureBranch (branchesOf (Many [featureBranch])))
  /\ exists t' prefixes r ix line nm h,
       answering (emitBatch [fieldsOfData featureData]) t'
         (listCall "/repo" prefixes None) = Ok r
       /\ nth_error (linesOf (stdout r)) ix = Some line
       /\ branchOfLine sampleParser line ix = Ok featureBranch
       /\ nth_error (piecesOf line ix) 1 = Some nm
       /\ name featureBranch = Some nm
       /\ nth_error (piecesOf line ix) 3 = Some h
       /\ sha (tip featureBranch) = Some h
       /\ (8 <= List.length (piecesOf line ix) ->
           summary (tip featureBranch) <> None
           /\ body (tip featureBranch) <> None).
Proof.
  split; [split; [reflexivity | left; reflexivity]|].
  apply (listed_branch_built_from_record string unit sampleParser "linux"
           (answering (emitBatch [fieldsOfData featureData])) "/repo" ListAll
           None [] (Many [featureBranch]) featureBranch);
    [reflexivity | left; reflexivity].
Defined.

(** C9 as stated fails: a record with an empty short name is listed as a
    branch with an empty name. *)
Lemma empty_name_is_listed :
  exists b : Branch string,
    fst (listBranch sampleParser "linux" (answering namelessBatch) "/repo"
                    ListAll None [])
    = Ok (Many [b])
    /\ name b = Some "".
Proof.
  eexists. split; [vm_compute; reflexivity | reflexivity].
Qed.

(** ** C10 *)

Section Deletion.

Context {CommitIdentity IGitExecutionOptions : Type}.
Variable parseIdentity : option string -> Result (option CommitIdentity).
Variable platform : string.
Variable Branch_remote : Branch CommitIdentity -> option string.
Variable Branch_upstreamWithoutRemote : Branch CommitIdentity -> option string.
Variable git_outcome :
  Trace IGitExecutionOptions -> GitCall IGitExecutionOptions
  -> Result IGitResult.

(** [find] returns the first branch that matches, and only that one. *)
Lemma findFirst_FirstMatch requested (branches : list (Branch CommitIdentity)) b :
  findFirst (namedLike requested) branches = Ok (Some b)
  <-> FirstMatch requested branches b.
Proof.
  split.
  - revert b. induction branches as [|x rest IH]; intros b H;
      cbn [findFirst] in H; [discriminate|].
    destruct (namedLike requested x) as [[|]|e] eqn:Hx; cbn [bindR] in H;
      [| |discriminate].
    + inversion H; subst x. exists [], rest. now repeat split.
    + destruct (IH b H) as (before & after & -> & Hb & Hbefore).
      exists (x :: before), after. repeat split; [exact Hb|].
      now constructor.
  - intros (before & after & -> & Hb & Hbefore).
    induction Hbefore as [|x before Hx _ IH]; cbn [List.app findFirst].
    + now rewrite Hb.
    + now rewrite Hx.
Qed.



End Deletion.



Example feature_push_issued :
  deleteBranch sampleParser "linux" sampleRemote sampleUpstreamWithoutRemote
    (answering (emitBatch [fieldsOfData featureData]))
    "/repo" "feature" deleteWithRemote None []
  = (Ok tt,
     [listCall "/repo" [] None;
      deleteCall "/repo" "feature" deleteWithRemote None;
      {| args := ["push"; "origin"; ":feature"];
         path := "/repo";
         commandName := "deleteRemoteBranch";
         callOptions := Passed None |}]).
Proof. reflexivity. Qed.


(** * Further properties of the module *)

(** ** The decoder on arbitrary output *)

Lemma split_length sep s :
  List.length (Js.split sep s) = S (countOf sep s).
Proof.
  induction s as [|c rest IH]; [reflexivity|]. cbn [Js.split countOf].
  destruct (Ascii.eqb c sep); cbn [List.length Nat.add]; [now rewrite IH|].
  destruct (Js.split sep rest) as [|piece pieces] eqn:Hsplit;
    [now apply split_not_nil in Hsplit|].
  exact IH.
Qed.

(** What follows the last separator is the last piece. *)
Lemma split_at_last sep s tail :
  occurs sep tail = false ->
  Js.split sep (s ++ String sep tail) = Js.split sep s +++ [tail].
Proof.
  intros Htail. induction s as [|c rest IH].
  - cbn. rewrite Ascii.eqb_refl, (split_absent sep tail Htail). reflexivity.
  - cbn [append Js.split]. rewrite IH.
    destruct (Ascii.eqb c sep); [reflexivity|].
    destruct (Js.split sep rest) as [|piece pieces] eqn:Hsplit;
      [now apply split_not_nil in Hsplit | reflexivity].
Qed.

Lemma linesOf_before_last_delimiter s tail :
  occurs delimiterChar tail = false ->
  linesOf (s ++ String delimiterChar tail) = Js.split delimiterChar s.
Proof.
  intros Htail. unfold linesOf.
  rewrite splice_drops_last, split_at_last by exact Htail.
  apply removelast_last.
Qed.

Lemma linesOf_length names :
  List.length (linesOf names) = countOf delimiterChar names.
Proof.
  unfold linesOf. rewrite splice_drops_last, removelast_firstn_len.
  rewrite length_firstn, split_length. cbn [pred]. lia.
Qed.

Lemma mapFrom_length {A B : Type} (f : A -> nat -> Result B) (l : list A) :
  forall ix ys, mapFrom f ix l = Ok ys -> List.length ys = List.length l.
Proof.
  induction l as [|x rest IH]; intros ix ys H; cbn [mapFrom] in H.
  - now inversion H.
  - destruct (f x ix) as [y|e]; cbn [bindR] in H; [|discriminate].
    destruct (mapFrom f (S ix) rest) as [zs|e] eqn:Hrest; cbn [bindR] in H;
      [|discriminate].
    inversion H. cbn [List.length]. now rewrite (IH _ _ Hrest).
Qed.

Lemma mapFrom_nth {A B : Type} (f : A -> nat -> Result B) (l : list A) :
  forall ix ys i y,
    mapFrom f ix l = Ok ys ->
    nth_error ys i = Some y ->
    exists x, nth_error l i = Some x /\ f x (ix + i) = Ok y.
Proof.
  induction l as [|x rest IH]; intros ix ys i y H Hi; cbn [mapFrom] in H.
  - inversion H; subst. destruct i; discriminate.
  - destruct (f x ix) as [z|e] eqn:Hx; cbn [bindR] in H; [|discriminate].
    destruct (mapFrom f (S ix) rest) as [zs|e] eqn:Hrest; cbn [bindR] in H;
      [|discriminate].
    inversion H; subst ys. destruct i as [|k]; cbn in Hi.
    + inversion Hi; subst z. exists x. now rewrite Nat.add_0_r.
    + destruct (IH _ _ _ _ Hrest Hi) as (w & Hw & Hf).
      exists w. split; [exact Hw|]. now rewrite <- Nat.add_succ_comm.
Qed.

(** The exception of a map is that of the first element on which the
    callback throws. *)
Lemma mapFrom_first_throw {A B : Type} (f : A -> nat -> Result B)
    (l : list A) :
  forall ix i x e,
    nth_error l i = Some x ->
    f x (ix + i) = Throw e ->
    (forall j z, j < i -> nth_error l j = Some z ->
                 throws (f z (ix + j)) = false) ->
    mapFrom f ix l = Throw e.
Proof.
  induction l as [|x0 rest IH]; intros ix i x e Hi Hx Hbefore.
  - destruct i; discriminate.
  - cbn [mapFrom]. destruct i as [|k]; cbn in Hi.
    + inversion Hi; subst x0. rewrite Nat.add_0_r in Hx. now rewrite Hx.
    + pose proof (Hbefore 0 x0 (Nat.lt_0_succ k) eq_refl) as H0.
      rewrite Nat.add_0_r in H0.
      destruct (f x0 ix) as [y|e0]; [|discriminate]. cbn [bindR].
      rewrite (IH (S ix) k x e Hi).
      * reflexivity.
      * now rewrite Nat.add_succ_comm.
      * intros j z Hj Hz. rewrite Nat.add_succ_comm.
        apply (Hbefore (S j) z); [lia | exact Hz].
Qed.

(** X1.  An output in which the delimiter does not occur is decoded into
    the empty list of branches, whatever it contains: what follows the last
    delimiter is dropped unread, and here that is everything. *)
Theorem output_without_delimiter_has_no_branch :
  forall (CommitIdentity : Type)
         (parseIdentity : option string -> Result (option CommitIdentity))
         (platform names : string),
    occurs delimiterChar names = false ->
    decodeBranches parseIdentity platform names = Ok [].
Proof.
  intros CI parse platform names Hnone. unfold decodeBranches, linesOf.
  rewrite (split_absent _ _ Hnone). cbn.
  destruct (platform =? "darwin"); reflexivity.
Qed.

Lemma output_without_delimiter_has_no_branch_witness :
  occurs delimiterChar "fatal: not a git repository" = false
  /\ decodeBranches sampleParser "linux" "fatal: not a git repository" = Ok [].
Proof.
  split; [reflexivity|].
  apply (output_without_delimiter_has_no_branch string sampleParser "linux").
  reflexivity.
Defined.

(** X2.  What the output holds after its last delimiter has no effect on the
    result: two outputs that differ only there are decoded alike, be it into
    branches or into an exception. *)
Theorem text_after_last_delimiter_is_ignored :
  forall (CommitIdentity : Type)
         (parseIdentity : option string -> Result (option CommitIdentity))
         (platform s tail tail' : string),
    occurs delimiterChar tail = false ->
    occurs delimiterChar tail' = false ->
    decodeBranches parseIdentity platform (s ++ String delimiterChar tail)
    = decodeBranches parseIdentity platform (s ++ String delimiterChar tail').
Proof.
  intros CI parse platform s tail tail' Htail Htail'. unfold decodeBranches.
  now rewrite !linesOf_before_last_delimiter.
Qed.

Lemma text_after_last_delimiter_is_ignored_witness :
  (occurs delimiterChar (String LF "") = false
   /\ occurs delimiterChar "trailing text" = false)
  /\ decodeBranches sampleParser "linux"
       (recordBody mainFields ++ String delimiterChar (String LF ""))
     = decodeBranches sampleParser "linux"
         (recordBody mainFields ++ String delimiterChar "trailing text").
Proof.
  split; [split; reflexivity|].
  apply (text_after_last_delimiter_is_ignored string sampleParser "linux");
    reflexivity.
Defined.

(** X3.  When an output is decoded, there are as many branches as the output
    has delimiter characters, on every platform. *)
Theorem one_branch_per_delimiter :
  forall (CommitIdentity : Type)
         (parseIdentity : option string -> Result (option CommitIdentity))
         (platform names : string) (bs : list (Branch CommitIdentity)),
    decodeBranches parseIdentity platform names = Ok bs ->
    List.length bs = countOf delimiterChar names.
Proof.
  intros CI parse platform names bs H. unfold decodeBranches, mapWithIndex in H.
  destruct (mapFrom (branchOfLine parse) 0 (linesOf names)) as [built|e]
    eqn:Hmap; cbn [bindR] in H; [|discriminate].
  inversion H.
  assert (Hlen : List.length built = countOf delimiterChar names)
    by now rewrite (mapFrom_length _ _ _ _ Hmap), linesOf_length.
  destruct (platform =? "darwin"); [now rewrite length_rev | exact Hlen].
Qed.

Lemma one_branch_per_delimiter_witness :
  decodeBranches sampleParser "darwin" featureBatch
  = Ok [originBranch; featureBranch]
  /\ List.length [originBranch; featureBranch]
     = countOf delimiterChar featureBatch.
Proof.
  split; [reflexivity|].
  apply (one_branch_per_delimiter string sampleParser "darwin").
  reflexivity.
Defined.

(** X4.  The platform changes nothing but the order: on [darwin] the
    decoder returns the reverse of the list it returns on any other
    platform, and it throws there exactly when, and what, it throws
    elsewhere. *)
Theorem darwin_reverses_the_listing :
  forall (CommitIdentity : Type)
         (parseIdentity : option string -> Result (option CommitIdentity))
         (platform names : string),
    platform <> "darwin" ->
    decodeBranches parseIdentity "darwin" names
    = match decodeBranches parseIdentity platform names with
      | Ok bs => Ok (rev bs)
      | Throw e => Throw e
      end.
Proof.
  intros CI parse platform names Hplatform. unfold decodeBranches.
  apply String.eqb_neq in Hplatform. rewrite Hplatform.
  destruct (mapWithIndex (branchOfLine parse) (linesOf names)); reflexivity.
Qed.

Lemma darwin_reverses_the_listing_witness :
  "win32" <> "darwin"
  /\ decodeBranches sampleParser "darwin" featureBatch
     = match decodeBranches sampleParser "win32" featureBatch with
       | Ok bs => Ok (rev bs)
       | Throw e => Throw e
       end.
Proof.
  split; [discriminate|].
  apply (darwin_reverses_the_listing string sampleParser "win32").
  discriminate.
Defined.

(** X5.  On a platform other than [darwin] the branches keep the order of
    the records: the branch at index [i] of the result is the one the
    callback builds from the record at index [i] of the output. *)
Theorem branches_keep_record_order :
  forall (CommitIdentity : Type)
         (parseIdentity : option string -> Result (option CommitIdentity))
         (platform names : string) (bs : list (Branch CommitIdentity))
         (i : nat) (b : Branch CommitIdentity),
    platform <> "darwin" ->
    decodeBranches parseIdentity platform names = Ok bs ->
    nth_error bs i = Some b ->
    exists line,
      nth_error (linesOf names) i = Some line
      /\ branchOfLine parseIdentity line i = Ok b.
Proof.
  intros CI parse platform names bs i b Hplatform H Hi.
  unfold decodeBranches, mapWithIndex in H.
  apply String.eqb_neq in Hplatform. rewrite Hplatform in H.
  destruct (mapFrom (branchOfLine parse) 0 (linesOf names)) as [built|e]
    eqn:Hmap; cbn [bindR] in H; [|discriminate].
  inversion H; subst bs.
  exact (mapFrom_nth _ _ _ _ _ _ Hmap Hi).
Qed.

Lemma branches_keep_record_order_witness :
  ("linux" <> "darwin"
   /\ decodeBranches sampleParser "linux" featureBatch
      = Ok [featureBranch; originBranch]
   /\ nth_error [featureBranch; originBranch] 1 = Some originBranch)
  /\ exists line,
       nth_error (linesOf featureBatch) 1 = Some line
       /\ branchOfLine sampleParser line 1 = Ok originBranch.
Proof.
  split; [split; [discriminate | split; reflexivity]|].
  apply (branches_keep_record_order string sampleParser "linux" featureBatch
           [featureBranch; originBranch] 1 originBranch);
    [discriminate | reflexivity | reflexivity].
Defined.

(** X6.  The exception of a listing is that of the first record that cannot
    be decoded.  When this record has an author piece for which the identity
    parser returns no identity, the exception is an [Error] whose message
    quotes that piece. *)
Theorem first_unparsed_identity_is_reported :
  forall (CommitIdentity : Type)
         (parseIdentity : option string -> Result (option CommitIdentity))
         (platform names : string) (ix : nat) (line raw : string),
    nth_error (linesOf names) ix = Some line ->
    nth_error (piecesOf line ix) 4 = Some raw ->
    parseIdentity (Some raw) = Ok None ->
    (forall j earlier,
        j < ix -> nth_error (linesOf names) j = Some earlier ->
        throws (branchOfLine parseIdentity earlier j) = false) ->
    decodeBranches parseIdentity platform names
    = Throw (Error ("Couldn't parse author identity " ++ raw ++ ".")).
Proof.
  intros CI parse platform names ix line raw Hline Hraw Hparse Hbefore.
  unfold decodeBranches, mapWithIndex.
  rewrite (mapFrom_first_throw (branchOfLine parse) (linesOf names) 0 ix line
             (Error ("Couldn't parse author identity " ++ raw ++ "."))
             Hline).
  - reflexivity.
  - unfold branchOfLine. cbn [Nat.add]. rewrite Hraw, Hparse. reflexivity.
  - exact Hbefore.
Qed.

Lemma first_unparsed_identity_is_reported_witness :
  (nth_error (linesOf anonymousBatch) 1 = Some anonymousLine
   /\ nth_error (piecesOf anonymousLine 1) 4 = Some "nobody"
   /\ sampleParser (Some "nobody") = Ok None
   /\ (forall j earlier,
         j < 1 -> nth_error (linesOf anonymousBatch) j = Some earlier ->
         throws (branchOfLine sampleParser earlier j) = false))
  /\ decodeBranches sampleParser "linux" anonymousBatch
     = Throw (Error "Couldn't parse author identity nobody.").
Proof.
  assert (Hbefore : forall j earlier,
             j < 1 -> nth_error (linesOf anonymousBatch) j = Some earlier ->
             throws (branchOfLine sampleParser earlier j) = false).
  { intros j earlier Hj Hearlier. destruct j as [|j]; [|lia].
    vm_compute in Hearlier. inversion Hearlier. reflexivity. }
  split; [repeat split; exact Hbefore|].
  apply (first_unparsed_identity_is_reported string sampleParser "linux"
           anonymousBatch 1 anonymousLine "nobody");
    [reflexivity | reflexivity | reflexivity | exact Hbefore].
Defined.

(** Joining the pieces of a string by the separator gives the string back. *)
Lemma join_split sep s :
  Js.join (String sep "") (Js.split sep s) = s.
Proof.
  induction s as [|c rest IH]; [reflexivity|]. cbn [Js.split].
  destruct (Ascii.eqb_spec c sep) as [->|Hc].
  - destruct (Js.split sep rest) as [|piece pieces] eqn:Hsplit;
      [now apply split_not_nil in Hsplit|].
    change (Js.join (String sep "") ("" :: piece :: pieces))
      with (String sep (Js.join (String sep "") (piece :: pieces))).
    now rewrite IH.
  - destruct (Js.split sep rest) as [|piece pieces] eqn:Hsplit;
      [now apply split_not_nil in Hsplit|].
    destruct pieces as [|next pieces].
    + cbn in IH |- *. now rewrite IH.
    + change (Js.join (String sep "") (String c piece :: next :: pieces))
        with (String c (Js.join (String sep "") (piece :: next :: pieces))).
      now rewrite IH.
Qed.

(** X7.  Nothing of the parent field is lost or added: the parent list of a
    decoded branch, joined by one space, is the sixth piece of its record,
    and the list has one element more than that piece has spaces. *)
Theorem parent_list_spells_parent_field :
  forall (CommitIdentity : Type)
         (parseIdentity : option string -> Result (option CommitIdentity))
         (line : string) (ix : nat) (b : Branch CommitIdentity),
    branchOfLine parseIdentity line ix = Ok b ->
    exists parents,
      nth_error (piecesOf line ix) 5 = Some parents
      /\ Js.join " " (parentSHAs (tip b)) = parents
      /\ List.length (parentSHAs (tip b)) = S (countOf " " parents).
Proof.
  intros CI parse line ix b Hok.
  destruct (branchOfLine_ok parse line ix b Hok)
    as (ref & nm & up & h & raw & parents & rest & a & Hp & _ & ->).
  exists parents. rewrite Hp. cbn [nth_error tip parentSHAs].
  split; [reflexivity|]. split; [apply join_split | apply split_length].
Qed.

Lemma parent_list_spells_parent_field_witness :
  branchOfLine sampleParser
    (String LF "" ++ recordBody (fieldsOfData originData)) 1
  = Ok originBranch
  /\ exists parents,
       nth_error (piecesOf (String LF ""
                              ++ recordBody (fieldsOfData originData)) 1) 5
       = Some parents
       /\ Js.join " " (parentSHAs (tip originBranch)) = parents
       /\ List.length (parentSHAs (tip originBranch))
          = S (countOf " " parents).
Proof.
  split; [reflexivity|].
  apply (parent_list_spells_parent_field string sampleParser
           (String LF "" ++ recordBody (fieldsOfData originData)) 1
           originBranch).
  reflexivity.
Defined.

(** ** The listings *)

Lemma isType_Remote {CommitIdentity : Type} (b : Branch CommitIdentity) :
  isType Remote b = negb (isType Local b).
Proof. unfold isType. destruct (type b); reflexivity. Qed.

Lemma isType_correct {CommitIdentity : Type} t (b : Branch CommitIdentity) :
  isType t b = true <-> type b = t.
Proof.
  unfold isType. destruct (type b), t; split; intros H;
    reflexivity || discriminate.
Qed.

(** X8.  The listings ['local'] and ['remote'] split the listing ['all']:
    when ['all'] returns a list, ['local'] and ['remote'] from the same state
    return its Local and its Remote branches, each in the order of the list,
    and every branch of the list is in exactly one of the two. *)
Theorem local_and_remote_split_all :
  forall (CommitIdentity IGitExecutionOptions : Type)
         (parseIdentity : option string -> Result (option CommitIdentity))
         (platform : string)
         (git_outcome : Trace IGitExecutionOptions
                        -> GitCall IGitExecutionOptions -> Result IGitResult)
         (path : string) (options : option IGitExecutionOptions)
         (t : Trace IGitExecutionOptions)
         (all : list (Branch CommitIdentity)),
    fst (listBranch parseIdentity platform git_outcome path ListAll options t)
    = Ok (Many all) ->
    fst (listBranch parseIdentity platform git_outcome path ListLocal
                    options t)
    = Ok (Many (filter (isType Local) all))
    /\ fst (listBranch parseIdentity platform git_outcome path ListRemote
                       options t)
       = Ok (Many (filter (isType Remote) all))
    /\ List.length (filter (isType Local) all)
       + List.length (filter (isType Remote) all)
       = List.length all
    /\ forall b,
         In b all ->
         (In b (filter (isType Local) all) /\ type b = Local)
         \/ (In b (filter (isType Remote) all) /\ type b = Remote).
Proof.
  intros CI Opts parse platform git_outcome path options t all Hall.
  rewrite listBranch_many_run in Hall |- * by discriminate.
  rewrite (listBranch_many_run parse platform git_outcome path ListRemote)
    by discriminate.
  cbn [fst] in Hall |- *.
  destruct (git_outcome t (listCall path [] options)) as [r|e];
    [|discriminate].
  destruct (decodeBranches parse platform (stdout r)) as [bs|e];
    [|discriminate].
  inversion Hall; subst bs.
  split; [reflexivity|]. split; [reflexivity|]. split.
  - rewrite (filter_ext (isType Remote) (fun b => negb (isType Local b)))
      by apply isType_Remote.
    apply filter_length.
  - intros b Hb. destruct (type b) eqn:Htype; [left | right];
      (split; [|reflexivity]); apply filter_In; (split; [exact Hb|]);
      now apply isType_correct.
Qed.

Lemma local_and_remote_split_all_witness :
  fst (listBranch sampleParser "linux" (answering featureBatch) "/repo"
                  ListAll None [])
  = Ok (Many [featureBranch; originBranch])
  /\ fst (listBranch sampleParser "linux" (answering featureBatch) "/repo"
                     ListLocal None [])
     = Ok (Many (filter (isType Local) [featureBranch; originBranch]))
  /\ fst (listBranch sampleParser "linux" (answering featureBatch) "/repo"
                     ListRemote None [])
     = Ok (Many (filter (isType Remote) [featureBranch; originBranch])).
Proof.
  split; [reflexivity|].
  destruct (local_and_remote_split_all string unit sampleParser "linux"
              (answering featureBatch) "/repo" None []
              [featureBranch; originBranch] eq_refl)
    as (Hlocal & Hremote & _).
  split; [exact Hlocal | exact Hremote].
Defined.

(** X9.  A current branch that the restricted ref listing does not find is
    no error: when [rev-parse] returns with an exit code other than 1 and
    128 and the listing that follows prints no record, the current branch is
    [undefined]. *)
Theorem current_branch_not_listed_is_undefined :
  forall (CommitIdentity IGitExecutionOptions : Type)
         (parseIdentity : option string -> Result (option CommitIdentity))
         (platform : string)
         (git_outcome : Trace IGitExecutionOptions
                        -> GitCall IGitExecutionOptions -> Result IGitResult)
         (path : string) (options : option IGitExecutionOptions)
         (t : Trace IGitExecutionOptions) (head listed : IGitResult),
    git_outcome t (headCall path options) = Ok head ->
    exitCode head <> 1%Z ->
    exitCode head <> 128%Z ->
    git_outcome (t +++ [headCall path options])
      (listCall path
         ["refs/heads/" ++ Js.replaceLeadingHeads (Js.trim (stdout head))]
         options)
    = Ok listed ->
    occurs delimiterChar (stdout listed) = false ->
    listBranch parseIdentity platform git_outcome path ListCurrent options t
    = (Ok (One None),
       t +++ [headCall path options;
              listCall path
                ["refs/heads/"
                   ++ Js.replaceLeadingHeads (Js.trim (stdout head))]
                options]).
Proof.
  intros CI Opts parse platform git_outcome path options t head listed
    Hhead H1 H128 Hlisted Hnone.
  rewrite (listBranch_current_run parse platform git_outcome path options
             t head Hhead).
  - rewrite Hlisted. unfold decodeBranches, linesOf.
    rewrite (split_absent _ _ Hnone). cbn.
    destruct (platform =? "darwin"); reflexivity.
  - apply orb_false_iff. split; now apply Z.eqb_neq.
Qed.

Lemma current_branch_not_listed_is_undefined_witness :
  listBranch sampleParser "linux"
    (answeringHead {| stdout := "gone" ++ String LF ""; exitCode := 0 |} "")
    "/repo" ListCurrent None []
  = (Ok (One None),
     [headCall "/repo" None; listCall "/repo" ["refs/heads/gone"] None]).
Proof.
  apply (current_branch_not_listed_is_undefined string unit sampleParser
           "linux"
           (answeringHead {| stdout := "gone" ++ String LF ""; exitCode := 0 |}
                          "")
           "/repo" None []
           {| stdout := "gone" ++ String LF ""; exitCode := 0 |}
           {| stdout := ""; exitCode := 0 |});
    reflexivity || discriminate.
Defined.

(** X10.  A listing only reads: it issues one invocation, or two for
    ['current'], and every one of them is a [rev-parse] or a
    [for-each-ref]. *)
Theorem listing_only_reads :
  forall (CommitIdentity IGitExecutionOptions : Type)
         (parseIdentity : option string -> Result (option CommitIdentity))
         (platform : string)
         (git_outcome : Trace IGitExecutionOptions
                        -> GitCall IGitExecutionOptions -> Result IGitResult)
         (path : string) (type : ListType)
         (options : option IGitExecutionOptions)
         (t : Trace IGitExecutionOptions),
    exists calls,
      snd (listBranch parseIdentity platform git_outcome path type options t)
      = t +++ calls
      /\ 1 <= List.length calls <= 2
      /\ (type <> ListCurrent -> List.length calls = 1)
      /\ Forall (fun c => subcommand c = "rev-parse"
                          \/ subcommand c = "for-each-ref") calls.
Proof.
  intros CI Opts parse platform git_outcome path type options t.
  destruct (classic_current type) as [->|Hmany].
  - destruct (git_outcome t (headCall path options)) as [head|e] eqn:Hhead.
    + destruct ((exitCode head =? 1)%Z || (exitCode head =? 128)%Z)
        eqn:Hcode.
      * exists [headCall path options].
        unfold listBranch, bindG, git. fold (headCall path options).
        rewrite Hhead, Hcode. cbn.
        repeat split; try lia; try congruence. constructor; [now left | constructor].
      * eexists.
        rewrite (listBranch_current_run parse platform git_outcome path
                   options t head Hhead Hcode).
        cbn [snd]. split; [reflexivity|]. cbn.
        repeat split; try lia; try congruence.
        constructor; [now left|]. constructor; [now right | constructor].
    + exists [headCall path options].
      unfold listBranch, bindG, git. fold (headCall path options).
      rewrite Hhead. cbn.
      repeat split; try lia; try congruence. constructor; [now left | constructor].
  - exists [listCall path [] options].
    rewrite listBranch_many_run by exact Hmany. cbn.
    repeat split; try lia; try congruence. constructor; [now right | constructor].
Qed.

(** ** Deletion *)

Lemma prefix_split (p s : string) :
  String.prefix p s = true -> s = p ++ Js.substr (String.length p) s.
Proof.
  revert s. induction p as [|c p IH]; intros s H; [reflexivity|].
  destruct s as [|d s]; cbn in H; [discriminate|].
  destruct (ascii_dec c d) as [->|]; [|discriminate].
  cbn. now rewrite <- (IH s H).
Qed.

(** X11.  The branch that [deleteBranch] looks for in the listing is one
    named [heads/] followed by the requested name, or named as requested
    when the requested name does not itself begin with [heads/]: a requested
    name that begins with [heads/] never matches the branch of that very
    name. *)
Theorem requested_name_matches :
  forall (CommitIdentity : Type) (requested : string)
         (b : Branch CommitIdentity),
    namedLike requested b = Ok true
    <-> exists n,
          name b = Some n
          /\ (n = "heads/" ++ requested
              \/ (n = requested /\ Js.startsWith requested "heads/" = false)).
Proof.
  intros CI requested b. unfold namedLike. split.
  - destruct (name b) as [n|]; [|discriminate]. intros H.
    injection H as Heq. apply String.eqb_eq in Heq.
    exists n. split; [reflexivity|].
    unfold Js.replaceLeadingHeads in Heq.
    destruct (Js.startsWith n "heads/") eqn:Hpre.
    + left. unfold Js.startsWith in Hpre. apply prefix_split in Hpre.
      change (String.length "heads/") with 6 in Hpre.
      rewrite Heq in Hpre. exact Hpre.
    + right. subst n. now split.
  - intros (n & -> & [->|[-> Hpre]]).
    + now rewrite replaceLeadingHeads_strips, String.eqb_refl.
    + unfold Js.replaceLeadingHeads. now rewrite Hpre, String.eqb_refl.
Qed.

(** What [deleteBranch] does, case by case. *)
Lemma deleteBranch_run {CommitIdentity IGitExecutionOptions : Type}
    (parseIdentity : option string -> Result (option CommitIdentity))
    (platform : string)
    (Branch_remote Branch_upstreamWithoutRemote :
       Branch CommitIdentity -> option string)
    (git_outcome : Trace IGitExecutionOptions
                   -> GitCall IGitExecutionOptions -> Result IGitResult)
    path requested deleteOptions options t :
  deleteBranch parseIdentity platform Branch_remote
    Branch_upstreamWithoutRemote git_outcome path requested deleteOptions
    options t
  = let deletion := deleteCall path requested deleteOptions options in
    if remoteRequested deleteOptions then
      let t1 := t +++ [listCall path [] options] in
      match fst (getBranches parseIdentity platform git_outcome path []
                             options t) with
      | Throw e => (Throw e, t1)
      | Ok branches =>
          match git_outcome t1 deletion with
          | Throw e => (Throw e, t1 +++ [deletion])
          | Ok _ =>
              match findFirst (namedLike requested) branches with
              | Throw e => (Throw e, t1 +++ [deletion])
              | Ok None => (Ok tt, t1 +++ [deletion])
              | Ok (Some b) =>
                  if Js.truthy (Branch_remote b) then
                    let push := pushCall Branch_remote
                                  Branch_upstreamWithoutRemote path b
                                  options in
                    (match git_outcome (t1 +++ [deletion]) push with
                     | Ok _ => Ok tt
                     | Throw e => Throw e
                     end,
                     (t1 +++ [deletion]) +++ [push])
                  else (Ok tt, t1 +++ [deletion])
              end
          end
      end
    else
      (match git_outcome t deletion with
       | Ok _ => Ok tt
       | Throw e => Throw e
       end,
       t +++ [deletion]).
Proof.
  cbv zeta. unfold remoteRequested, deleteBranch, bindG at 1.
  destruct (isTrue match deleteOptions with
                   | Some o => remote o
                   | None => Some false
                   end).
  - rewrite getBranches_run. cbn [fst].
    destruct (match git_outcome t (listCall path [] options) with
              | Ok r => decodeBranches parseIdentity platform (stdout r)
              | Throw e => Throw e
              end) as [branches|e]; [|reflexivity].
    unfold bindG at 1, git at 1.
    fold (deleteCall path requested deleteOptions options).
    destruct (git_outcome _ (deleteCall path requested deleteOptions options))
      as [r|e]; [|reflexivity].
    cbn [andb]. destruct branches as [|b0 rest]; [reflexivity|].
    cbn [List.length Nat.eqb negb]. unfold bindG, lift.
    destruct (findFirst (namedLike requested) (b0 :: rest)) as [[b|]|e];
      try reflexivity.
    destruct (Js.truthy (Branch_remote b)); [|reflexivity].
    unfold git, ret.
    fold (pushCall Branch_remote Branch_upstreamWithoutRemote path b options).
    destruct (git_outcome _ (pushCall _ _ path b options)); reflexivity.
  - unfold ret, bindG, git. cbn [andb].
    fold (deleteCall path requested deleteOptions options).
    destruct (git_outcome t _); reflexivity.
Qed.

(** X12.  With the remote option, a listing that fails keeps the branch:
    when the listing before the deletion throws, [deleteBranch] throws the
    same exception and the deletion is not invoked. *)
Theorem failed_listing_prevents_deletion :
  forall (CommitIdentity IGitExecutionOptions : Type)
         (parseIdentity : option string -> Result (option CommitIdentity))
         (platform : string)
         (Branch_remote Branch_upstreamWithoutRemote :
            Branch CommitIdentity -> option string)
         (git_outcome : Trace IGitExecutionOptions
                        -> GitCall IGitExecutionOptions -> Result IGitResult)
         (path requested : string) (deleteOptions : option DeleteOptions)
         (options : option IGitExecutionOptions)
         (t : Trace IGitExecutionOptions) (e : Exception),
    remoteRequested deleteOptions = true ->
    fst (getBranches parseIdentity platform git_outcome path [] options t)
    = Throw e ->
    deleteBranch parseIdentity platform Branch_remote
      Branch_upstreamWithoutRemote git_outcome path requested deleteOptions
      options t
    = (Throw e, t +++ [listCall path [] options]).
Proof.
  intros CI Opts parse platform Branch_remote Branch_upstreamWithoutRemote
    git_outcome path requested deleteOptions options t e Hremote Hlist.
  rewrite deleteBranch_run. cbv zeta. now rewrite Hremote, Hlist.
Qed.

Lemma failed_listing_prevents_deletion_witness :
  (remoteRequested deleteWithRemote = true
   /\ fst (getBranches sampleParser "linux" (answering anonymousBatch)
                       "/repo" [] None [])
      = Throw (Error "Couldn't parse author identity nobody."))
  /\ deleteBranch sampleParser "linux" sampleRemote
       sampleUpstreamWithoutRemote (answering anonymousBatch)
       "/repo" "main" deleteWithRemote None []
     = (Throw (Error "Couldn't parse author identity nobody."),
        [listCall "/repo" [] None]).
Proof.
  split; [split; reflexivity|].
  apply (failed_listing_prevents_deletion string unit sampleParser "linux"
           sampleRemote sampleUpstreamWithoutRemote
           (answering anonymousBatch) "/repo" "main" deleteWithRemote None []);
    reflexivity.
Defined.

(** X13.  A deletion that the tool rejects ends [deleteBranch]: the
    exception is thrown again and no push follows, with and without the
    remote option. *)
Theorem failed_deletion_is_rethrown :
  forall (CommitIdentity IGitExecutionOptions : Type)
         (parseIdentity : option string -> Result (option CommitIdentity))
         (platform : string)
         (Branch_remote Branch_upstreamWithoutRemote :
            Branch CommitIdentity -> option string)
         (git_outcome : Trace IGitExecutionOptions
                        -> GitCall IGitExecutionOptions -> Result IGitResult)
         (path requested : string) (deleteOptions : option DeleteOptions)
         (options : option IGitExecutionOptions)
         (t : Trace IGitExecutionOptions) (e : Exception),
    (remoteRequested deleteOptions = false ->
     git_outcome t (deleteCall path requested deleteOptions options)
     = Throw e ->
     deleteBranch parseIdentity platform Branch_remote
       Branch_upstreamWithoutRemote git_outcome path requested deleteOptions
       options t
     = (Throw e, t +++ [deleteCall path requested deleteOptions options]))
    /\ (remoteRequested deleteOptions = true ->
        forall branches,
          fst (getBranches parseIdentity platform git_outcome path []
                           options t) = Ok branches ->
          git_outcome (t +++ [listCall path [] options])
                      (deleteCall path requested deleteOptions options)
          = Throw e ->
          deleteBranch parseIdentity platform Branch_remote
            Branch_upstreamWithoutRemote git_outcome path requested
            deleteOptions options t
          = (Throw e,
             t +++ [listCall path [] options;
                    deleteCall path requested deleteOptions options])).
Proof.
  intros CI Opts parse platform Branch_remote Branch_upstreamWithoutRemote
    git_outcome path requested deleteOptions options t e.
  split.
  - intros Hremote Hdelete. rewrite deleteBranch_run. cbv zeta.
    now rewrite Hremote, Hdelete.
  - intros Hremote branches Hlist Hdelete. rewrite deleteBranch_run. cbv zeta.
    rewrite Hremote, Hlist, Hdelete. now rewrite <- app_assoc.
Qed.

Lemma failed_deletion_is_rethrown_witness :
  (remoteRequested None = false
   /\ rejecting "deleteBranch" featureBatch []
        (deleteCall "/repo" "feature" None None)
      = Throw (Error "exit code 1")
   /\ deleteBranch sampleParser "linux" sampleRemote
        sampleUpstreamWithoutRemote (rejecting "deleteBranch" featureBatch)
        "/repo" "feature" None None []
      = (Throw (Error "exit code 1"),
         [deleteCall "/repo" "feature" None None]))
  /\ (remoteRequested deleteWithRemote = true
      /\ fst (getBranches sampleParser "linux"
                (rejecting "deleteBranch" featureBatch) "/repo" [] None [])
         = Ok [featureBranch; originBranch]
      /\ rejecting "deleteBranch" featureBatch [listCall "/repo" [] None]
           (deleteCall "/repo" "feature" deleteWithRemote None)
         = Throw (Error "exit code 1")
      /\ deleteBranch sampleParser "linux" sampleRemote
           sampleUpstreamWithoutRemote (rejecting "deleteBranch" featureBatch)
           "/repo" "feature" deleteWithRemote None []
         = (Throw (Error "exit code 1"),
            [listCall "/repo" [] None;
             deleteCall "/repo" "feature" deleteWithRemote None])).
Proof.
  pose proof (failed_deletion_is_rethrown string unit sampleParser "linux"
                sampleRemote sampleUpstreamWithoutRemote
                (rejecting "deleteBranch" featureBatch) "/repo" "feature")
    as H.
  split.
  - split; [reflexivity|]. split; [reflexivity|].
    exact (proj1 (H None None [] (Error "exit code 1")) eq_refl eq_refl).
  - split; [reflexivity|]. split; [reflexivity|]. split; [reflexivity|].
    exact (proj2 (H deleteWithRemote None [] (Error "exit code 1")) eq_refl
             [featureBranch; originBranch] eq_refl eq_refl).
Defined.

(** X14.  [deleteBranch] returns normally only after the deletion: when it
    returns, the deletion of the local branch has been invoked and the tool
    has accepted it; at most the listing was invoked before it and at most
    the push after it. *)
Theorem return_means_deleted :
  forall (CommitIdentity IGitExecutionOptions : Type)
         (parseIdentity : option string -> Result (option CommitIdentity))
         (platform : string)
         (Branch_remote Branch_upstreamWithoutRemote :
            Branch CommitIdentity -> option string)
         (git_outcome : Trace IGitExecutionOptions
                        -> GitCall IGitExecutionOptions -> Result IGitResult)
         (path requested : string) (deleteOptions : option DeleteOptions)
         (options : option IGitExecutionOptions)
         (t : Trace IGitExecutionOptions),
    fst (deleteBranch parseIdentity platform Branch_remote
           Branch_upstreamWithoutRemote git_outcome path requested
           deleteOptions options t)
    = Ok tt ->
    exists before after r,
      snd (deleteBranch parseIdentity platform Branch_remote
             Branch_upstreamWithoutRemote git_outcome path requested
             deleteOptions options t)
      = (t +++ before)
          +++ deleteCall path requested deleteOptions options :: after
      /\ git_outcome (t +++ before)
           (deleteCall path requested deleteOptions options) = Ok r
      /\ (before = [] \/ before = [listCall path [] options])
      /\ List.length after <= 1
      /\ Forall (fun c => commandName c = "deleteRemoteBranch") after.
Proof.
  intros CI Opts parse platform Branch_remote Branch_upstreamWithoutRemote
    git_outcome path requested deleteOptions options t.
  rewrite deleteBranch_run. cbv zeta.
  destruct (remoteRequested deleteOptions).
  - destruct (fst (getBranches parse platform git_outcome path [] options t))
      as [branches|e]; [|discriminate].
    destruct (git_outcome (t +++ [listCall path [] options])
                (deleteCall path requested deleteOptions options))
      as [r|e] eqn:Hdelete; [|discriminate].
    destruct (findFirst (namedLike requested) branches) as [[b|]|e];
      [| |discriminate].
    + destruct (Js.truthy (Branch_remote b)); intros _.
      * exists [listCall path [] options],
          [pushCall Branch_remote Branch_upstreamWithoutRemote path b options],
          r.
        cbn [snd]. rewrite <- !app_assoc.
        repeat split; try exact Hdelete; try (now right); cbn; try lia;
          try (now repeat constructor).
      * exists [listCall path [] options], [], r. cbn [snd].
        repeat split; try exact Hdelete; try (now right); cbn; try lia;
          try (now repeat constructor).
    + intros _. exists [listCall path [] options], [], r. cbn [snd].
      repeat split; try exact Hdelete; try (now right); cbn; try lia;
        try (now repeat constructor).
  - destruct (git_outcome t (deleteCall path requested deleteOptions options))
      as [r|e] eqn:Hdelete; [|discriminate].
    intros _. exists [], [], r. cbn [snd]. rewrite app_nil_r.
    repeat split; try exact Hdelete; try (now left); cbn; try lia;
      try (now repeat constructor).
Qed.

Lemma return_means_deleted_witness :
  fst (deleteBranch sampleParser "linux" sampleRemote
         sampleUpstreamWithoutRemote (answering featureBatch)
         "/repo" "feature" deleteWithRemote None [])
  = Ok tt
  /\ exists before after r,
       snd (deleteBranch sampleParser "linux" sampleRemote
              sampleUpstreamWithoutRemote (answering featureBatch)
              "/repo" "feature" deleteWithRemote None [])
       = ([] +++ before)
           +++ deleteCall "/repo" "feature" deleteWithRemote None :: after
       /\ answering featureBatch ([] +++ before)
            (deleteCall "/repo" "feature" deleteWithRemote None) = Ok r
       /\ (before = [] \/ before = [listCall "/repo" [] None])
       /\ List.length after <= 1
       /\ Forall (fun c => commandName c = "deleteRemoteBranch") after.
Proof.
  split; [reflexivity|].
  apply (return_means_deleted string unit sampleParser "linux" sampleRemote
           sampleUpstreamWithoutRemote (answering featureBatch)
           "/repo" "feature" deleteWithRemote None []).
  reflexivity.
Defined.

(** X15.  A push that the tool rejects is reported after the fact: when the
    listing and the deletion succeed and the push for the first matching
    branch throws, [deleteBranch] throws that exception, and the local branch
    has been deleted by then. *)
Theorem failed_push_follows_deletion :
  forall (CommitIdentity IGitExecutionOptions : Type)
         (parseIdentity : option string -> Result (option CommitIdentity))
         (platform : string)
         (Branch_remote Branch_upstreamWithoutRemote :
            Branch CommitIdentity -> option string)
         (git_outcome : Trace IGitExecutionOptions
                        -> GitCall IGitExecutionOptions -> Result IGitResult)
         (path requested : string) (deleteOptions : option DeleteOptions)
         (options : option IGitExecutionOptions)
         (t : Trace IGitExecutionOptions)
         (branches : list (Branch CommitIdentity))
         (b : Branch CommitIdentity) (r : IGitResult) (e : Exception),
    remoteRequested deleteOptions = true ->
    fst (getBranches parseIdentity platform git_outcome path [] options t)
    = Ok branches ->
    git_outcome (t +++ [listCall path [] options])
                (deleteCall path requested deleteOptions options) = Ok r ->
    FirstMatch requested branches b ->
    Js.truthy (Branch_remote b) = true ->
    git_outcome (t +++ [listCall path [] options;
                        deleteCall path requested deleteOptions options])
                (pushCall Branch_remote Branch_upstreamWithoutRemote path b
                          options) = Throw e ->
    deleteBranch parseIdentity platform Branch_remote
      Branch_upstreamWithoutRemote git_outcome path requested deleteOptions
      options t
    = (Throw e,
       t +++ [listCall path [] options;
              deleteCall path requested deleteOptions options;
              pushCall Branch_remote Branch_upstreamWithoutRemote path b
                       options]).
Proof.
  intros CI Opts parse platform Branch_remote Branch_upstreamWithoutRemote
    git_outcome path requested deleteOptions options t branches b r e
    Hremote Hlist Hdelete Hfirst Htruthy Hpush.
  apply findFirst_FirstMatch in Hfirst.
  rewrite deleteBranch_run. cbv zeta.
  rewrite Hremote, Hlist, Hdelete, Hfirst, Htruthy.
  rewrite <- !app_assoc. cbn [List.app]. now rewrite Hpush.
Qed.

Lemma failed_push_follows_deletion_witness :
  (remoteRequested deleteWithRemote = true
   /\ fst (getBranches sampleParser "linux"
             (rejecting "deleteRemoteBranch" featureBatch) "/repo" [] None [])
      = Ok [featureBranch; originBranch]
   /\ Js.truthy (sampleRemote featureBranch) = true)
  /\ deleteBranch sampleParser "linux" sampleRemote
       sampleUpstreamWithoutRemote
       (rejecting "deleteRemoteBranch" featureBatch)
       "/repo" "feature" deleteWithRemote None []
     = (Throw (Error "exit code 1"),
        [listCall "/repo" [] None;
         deleteCall "/repo" "feature" deleteWithRemote None;
         pushCall sampleRemote sampleUpstreamWithoutRemote "/repo"
                  featureBranch None]).
Proof.
  split; [repeat split|].
  apply (failed_push_follows_deletion string unit sampleParser "linux"
           sampleRemote sampleUpstreamWithoutRemote
           (rejecting "deleteRemoteBranch" featureBatch)
           "/repo" "feature" deleteWithRemote None []
           [featureBranch; originBranch] featureBranch
           {| stdout := featureBatch; exitCode := 0 |});
    try reflexivity.
  exists [], [originBranch]. repeat split. constructor.
Defined.

(** X16.  On a batch of well-formed records the identity parser alone
    decides: decoding throws exactly when the parser does not return an
    identity for the author field of some record. *)
Theorem well_formed_batch_fails_only_on_identity :
  forall (CommitIdentity : Type)
         (parseIdentity : option string -> Result (option CommitIdentity))
         (platform : string) (records : list (list string)),
    forallb wellFormedRecord records = true ->
    (throws (decodeBranches parseIdentity platform (emitBatch records)) = true
     <-> exists fields,
           In fields records
           /\ accepted (parseIdentity (nth_error fields 4)) = false).
Proof.
  intros CI parse platform records Hall.
  rewrite decodeBranches_throws. unfold mapWithIndex.
  rewrite mapFrom_throws, linesOf_batch by exact Hall. cbn [Nat.add].
  assert (Hpieces : forall ix fields,
             nth_error records ix = Some fields ->
             nth_error (recordLines "" records) ix
             = Some ((if (0 <? ix)%nat then String LF "" else "")
                       ++ recordBody fields)
             /\ piecesOf ((if (0 <? ix)%nat then String LF "" else "")
                            ++ recordBody fields) ix
                = fields +++ [""]
             /\ List.length fields = 8).
  { intros ix fields Hix.
    assert (Hwf : wellFormedRecord fields = true).
    { apply nth_error_In in Hix. rewrite forallb_forall in Hall.
      now apply Hall. }
    split; [now apply recordLines_nth|].
    split; [now apply piecesOf_record, wellFormedRecord_clean|].
    unfold wellFormedRecord in Hwf. apply andb_true_iff in Hwf as [Hlen _].
    now apply Nat.eqb_eq. }
  split.
  - intros (ix & line & Hline & Hthrows).
    destruct (nth_error records ix) as [fields|] eqn:Hix.
    + destruct (Hpieces ix fields Hix) as (Hnth & Hp & Hlen).
      rewrite Hnth in Hline. inversion Hline; subst line.
      exists fields. split; [now apply nth_error_In in Hix|].
      rewrite branchOfLine_throws, Hp, length_app, Hlen in Hthrows.
      cbn [List.length Nat.add Nat.ltb Nat.leb orb] in Hthrows.
      rewrite nth_error_app1 in Hthrows by lia.
      now apply negb_true_iff.
    + apply nth_error_None in Hix.
      assert (Hsome : nth_error (recordLines "" records) ix <> None)
        by congruence.
      apply nth_error_Some in Hsome. rewrite recordLines_length in Hsome. lia.
  - intros (fields & Hin & Hrejected).
    apply In_nth_error in Hin as (ix & Hix).
    destruct (Hpieces ix fields Hix) as (Hnth & Hp & Hlen).
    eexists ix, _. split; [exact Hnth|].
    rewrite branchOfLine_throws, Hp, length_app, Hlen.
    rewrite nth_error_app1 by lia. rewrite Hrejected. apply orb_true_r.
Qed.

Lemma well_formed_batch_fails_only_on_identity_witness :
  forallb wellFormedRecord
    [mainFields;
     ["refs/heads/dev"; "dev"; ""; "def456"; "nobody"; "abc123"; "Work"; ""]]
  = true
  /\ throws (decodeBranches sampleParser "linux" anonymousBatch) = true.
Proof.
  split; [reflexivity|].
  apply (well_formed_batch_fails_only_on_identity string sampleParser "linux"
           [mainFields;
            ["refs/heads/dev"; "dev"; ""; "def456"; "nobody"; "abc123";
             "Work"; ""]] eq_refl).
  exists ["refs/heads/dev"; "dev"; ""; "def456"; "nobody"; "abc123"; "Work";
          ""].
  split; [right; left; reflexivity | reflexivity].
Defined.

(** ** Creation and renaming *)

(** X17.  [createBranch] issues one invocation and returns what the tool
    answers.  The arguments are [checkout -b] and the name when the checkout
    option is true, [branch] and the name otherwise, followed by the start
    point when one is given that is not the empty string: an empty start
    point is not passed on, and no options stand for no checkout and no
    start point. *)
Theorem create_issues_one_invocation :
  forall (IGitExecutionOptions : Type)
         (git_outcome : Trace IGitExecutionOptions
                        -> GitCall IGitExecutionOptions -> Result IGitResult)
         (repositoryPath name : string) (createOptions : option CreateOptions)
         (options : option IGitExecutionOptions)
         (t : Trace IGitExecutionOptions),
    let start := match createOptions with
                 | Some o => startPoint o
                 | None => None
                 end in
    let switch := match createOptions with
                  | Some o => checkout o
                  | None => None
                  end in
    exists c,
      createBranch git_outcome repositoryPath name createOptions options t
      = (match git_outcome t c with
         | Ok _ => Ok tt
         | Throw e => Throw e
         end,
         t +++ [c])
      /\ commandName c = "createBranch"
      /\ path c = repositoryPath
      /\ callOptions c = Passed options
      /\ args c
         = (if isTrue switch then ["checkout"; "-b"; name]
            else ["branch"; name])
           +++ match start with
               | Some s => if String.eqb s "" then [] else [s]
               | None => []
               end.
Proof.
  intros Opts git_outcome repositoryPath name createOptions options t.
  unfold createBranch, bindG, git, ret. cbv beta zeta.
  match goal with
  | |- context [git_outcome t ?call] => exists call
  end.
  split.
  - destruct (git_outcome t _); reflexivity.
  - cbn [commandName path args callOptions].
    repeat split.
    destruct createOptions as [[[s|] [[|]|]]|]; cbn;
      try (destruct s; cbn); reflexivity.
Qed.

(** Among the invocations listed in [Hin], the one named as [Hname] says is
    the deletion. *)
Ltac only_deletion Hin Hname :=
  cbn [List.app In] in Hin;
  repeat (destruct Hin as [<-|Hin];
          [first [reflexivity | cbn in Hname; discriminate Hname]|]);
  destruct Hin.

(** X18.  A rename or a deletion is forced only when the force option is
    [true].  [renameBranch] issues the one invocation
    [branch -m name newName], with [-M] in the place of [-m] exactly when
    force is [true].  Among the invocations that [deleteBranch] issues, every
    one named [deleteBranch] has the arguments [branch -d name], with [-D] in
    the place of [-d] exactly when force is [true]; without the remote option
    it is the only invocation.  No options, empty options and force [false]
    give the same arguments. *)
Theorem force_only_when_true :
  forall (CommitIdentity IGitExecutionOptions : Type)
         (parseIdentity : option string -> Result (option CommitIdentity))
         (platform : string)
         (Branch_remote Branch_upstreamWithoutRemote :
            Branch CommitIdentity -> option string)
         (git_outcome : Trace IGitExecutionOptions
                        -> GitCall IGitExecutionOptions -> Result IGitResult)
         (repositoryPath name newName : string)
         (renameOptions : option RenameOptions)
         (deleteOptions : option DeleteOptions)
         (options : option IGitExecutionOptions)
         (t : Trace IGitExecutionOptions),
    (exists c,
        renameBranch git_outcome repositoryPath name newName renameOptions
                     options t
        = (match git_outcome t c with
           | Ok _ => Ok tt
           | Throw e => Throw e
           end,
           t +++ [c])
        /\ commandName c = "renameBranch"
        /\ (renameOptions = Some {| renameForce := Some true |} ->
            args c = ["branch"; "-M"; name; newName])
        /\ (renameOptions <> Some {| renameForce := Some true |} ->
            args c = ["branch"; "-m"; name; newName]))
    /\ (exists calls,
          snd (deleteBranch parseIdentity platform Branch_remote
                 Branch_upstreamWithoutRemote git_outcome repositoryPath name
                 deleteOptions options t)
          = t +++ calls
          /\ (remoteRequested deleteOptions = false ->
              exists c, calls = [c] /\ commandName c = "deleteBranch")
          /\ forall c,
               In c calls ->
               commandName c = "deleteBranch" ->
               ((exists r,
                    deleteOptions
                    = Some {| force := Some true; remote := r |}) ->
                args c = ["branch"; "-D"; name])
               /\ ((forall r,
                       deleteOptions
                       <> Some {| force := Some true; remote := r |}) ->
                   args c = ["branch"; "-d"; name])).
Proof.
  intros CI Opts parse platform Branch_remote Branch_upstreamWithoutRemote
    git_outcome repositoryPath name newName renameOptions deleteOptions
    options t.
  split.
  - unfold renameBranch, bindG, git, ret. cbv beta zeta.
    match goal with
    | |- context [git_outcome t ?call] => exists call
    end.
    split.
    + destruct (git_outcome t _); reflexivity.
    + cbn [commandName args]. split; [reflexivity|]. split.
      * intros ->. reflexivity.
      * intros Hnot. destruct renameOptions as [[[[|]|]]|];
          reflexivity || congruence.
  - assert (Hflag :
              forall c : GitCall Opts,
                c = deleteCall repositoryPath name deleteOptions options ->
                ((exists r,
                     deleteOptions
                     = Some {| force := Some true; remote := r |}) ->
                 args c = ["branch"; "-D"; name])
                /\ ((forall r,
                        deleteOptions
                        <> Some {| force := Some true; remote := r |}) ->
                    args c = ["branch"; "-d"; name])).
    { intros c ->. split.
      - intros (r & ->). reflexivity.
      - intros Hnot. destruct deleteOptions as [[[[|]|] r]|];
          try reflexivity.
        now destruct (Hnot r). }
    rewrite deleteBranch_run. cbv zeta.
    destruct (remoteRequested deleteOptions).
    + destruct (fst (getBranches parse platform git_outcome repositoryPath []
                                 options t)) as [branches|e].
      * destruct (git_outcome _ (deleteCall repositoryPath name deleteOptions
                                            options)) as [r|e].
        -- destruct (findFirst (namedLike name) branches) as [[b|]|e];
             [destruct (Js.truthy (Branch_remote b))| |];
             cbn [snd]; rewrite <- ?app_assoc; eexists;
             (split; [reflexivity|]); (split; [discriminate|]);
             intros c Hin Hname; apply Hflag; only_deletion Hin Hname.
        -- cbn [snd]. rewrite <- app_assoc. eexists.
           split; [reflexivity|]. split; [discriminate|].
           intros c Hin Hname. apply Hflag. only_deletion Hin Hname.
      * cbn [snd]. eexists. split; [reflexivity|]. split; [discriminate|].
        intros c Hin Hname. apply Hflag. only_deletion Hin Hname.
    + cbn [snd]. eexists. split; [reflexivity|]. split.
      * intros _. eexists. split; reflexivity.
      * intros c Hin Hname. apply Hflag. only_deletion Hin Hname.
Qed.

Lemma force_only_when_true_witness :
  (remoteRequested deleteForced = false
   /\ exists c,
        snd (deleteBranch sampleParser "linux" sampleRemote
               sampleUpstreamWithoutRemote (answering featureBatch)
               "/repo" "feature" deleteForced None [])
        = [c]
        /\ args c = ["branch"; "-D"; "feature"])
  /\ exists calls,
       snd (deleteBranch sampleParser "linux" sampleRemote
              sampleUpstreamWithoutRemote (answering featureBatch)
              "/repo" "feature" deleteWithRemote None [])
       = calls
       /\ forall c,
            In c calls -> commandName c = "deleteBranch" ->
            args c = ["branch"; "-d"; "feature"].
Proof.
  pose proof (fun deleteOptions =>
                proj2 (force_only_when_true string unit sampleParser "linux"
                         sampleRemote sampleUpstreamWithoutRemote
                         (answering featureBatch) "/repo" "feature" "renamed"
                         None deleteOptions None [])) as H.
  split.
  - split; [reflexivity|].
    destruct (H deleteForced) as (calls & Hsnd & Hone & Hargs).
    destruct (Hone eq_refl) as (c & -> & Hname).
    exists c. split; [exact Hsnd|].
    apply (Hargs c (or_introl eq_refl) Hname). now exists None.
  - destruct (H deleteWithRemote) as (calls & Hsnd & _ & Hargs).
    exists calls. split; [exact Hsnd|].
    intros c Hin Hname. apply (Hargs c Hin Hname). intros r. discriminate.
Defined.

(** ** C4 *)



